(** * ChemA: the ChEMBL importer and query utility, embedded in Rocq

    The development follows [src/chembl_importer.py]
    ([ChEMBLWeaviateImporter]) and [src/chembl_query.py]
    ([ChEMBLQueryUtil]).

    - Python values are the inductive [PyVal]; a [dict] with string keys
      is a [gmap string PyVal].
    - A Python [str] is a [string], read as the sequence of its code
      points (code points up to U+00FF).
    - A Python [float] is idealised as a rational number ([Q]).
    - Exceptions, the log written through [logger] and the contents of
      the Weaviate collection are threaded explicitly by the monad [M].
    - The external collaborators (sentence-transformer model, ChEMBL web
      client, [generate_uuid5], the Weaviate query engine) are records of
      operations the functions are parameterised by. *)

From Stdlib Require Import ZArith QArith Lqa String Ascii List Sorted.
From stdpp Require Import base gmap strings list fin_maps pretty sorting.

Local Open Scope Z_scope.
Local Open Scope string_scope.

(** ** Python values *)

Module Py.

Inductive PyVal : Type :=
  | PyNone
  | PyBool (b : bool)
  | PyInt (z : Z)
  | PyFloat (q : Q)
  | PyStr (s : string).

(** A [dict] whose keys are strings. *)
Abbreviation PyDict := (gmap string PyVal).

(** [repr] of a float is the one part of [str()] that is not modelled:
    it is a parameter of the formatting functions. *)
Class FloatRepr := float_repr : Q -> string.

(** [str(v)], as used by f-string interpolation. *)
Definition py_str `{FloatRepr} (v : PyVal) : string :=
  match v with
  | PyNone => "None"
  | PyBool true => "True"
  | PyBool false => "False"
  | PyInt z => pretty z
  | PyFloat q => float_repr q
  | PyStr s => s
  end.

(** [bool(v)]: the truth value tested by [if v:]. *)
Definition truthy (v : PyVal) : bool :=
  match v with
  | PyNone => false
  | PyBool b => b
  | PyInt z => negb (Z.eqb z 0)
  | PyFloat q => negb (Qeq_bool q 0)
  | PyStr s => negb (String.eqb s "")
  end.

(** The number a value stands for in comparisons ([True == 1]). *)
Definition py_num (v : PyVal) : option Q :=
  match v with
  | PyBool b => Some (inject_Z (if b then 1 else 0))
  | PyInt z => Some (inject_Z z)
  | PyFloat q => Some q
  | _ => None
  end.

(** [a == b]. *)
Definition py_eq (a b : PyVal) : bool :=
  match py_num a, py_num b with
  | Some x, Some y => Qeq_bool x y
  | None, None =>
      match a, b with
      | PyNone, PyNone => true
      | PyStr s, PyStr t => String.eqb s t
      | _, _ => false
      end
  | _, _ => false
  end.

(** [d.get(k)]: [None] when the key is missing. *)
Definition dict_get (d : PyDict) (k : string) : PyVal :=
  default PyNone (d !! k).

(** [d.get(k, dflt)]. *)
Definition dict_get_default (d : PyDict) (k : string) (dflt : PyVal) : PyVal :=
  default dflt (d !! k).

(** [str.isspace] on one code point below U+0100. *)
Definition is_space (c : ascii) : bool :=
  let n := N_of_ascii c in
  ((9 <=? n)%N && (n <=? 13)%N) || ((28 <=? n)%N && (n <=? 32)%N)
  || (n =? 133)%N || (n =? 160)%N.

Fixpoint lstrip_list (l : list ascii) : list ascii :=
  match l with
  | c :: l' => if is_space c then lstrip_list l' else l
  | [] => []
  end.

Definition rstrip_list (l : list ascii) : list ascii :=
  rev (lstrip_list (rev l)).

(** [s.strip()]. *)
Definition py_strip (s : string) : string :=
  string_of_list_ascii (rstrip_list (lstrip_list (list_ascii_of_string s))).

(** [xs[lo:hi]] with Python's treatment of negative and out-of-range
    bounds; [None] is an omitted bound. *)
Definition slice_index (len : Z) (i : Z) : Z :=
  if Z.ltb i 0 then Z.max 0 (len + i) else Z.min len i.

Definition py_slice {A} (xs : list A) (lo hi : option Z) : list A :=
  let len := Z.of_nat (length xs) in
  let l := from_option (slice_index len) 0 lo in
  let h := from_option (slice_index len) len hi in
  take (Z.to_nat (h - l)) (drop (Z.to_nat l) xs).

End Py.
Export Py.

(** ** Exceptions, log and the state-and-exception monad *)

Inductive exn : Type :=
  | KeyError (key : string)
  | ValueError (msg : string)
  | TypeError (msg : string)
  | ExternalError (msg : string).

(** [str(e)]. *)
Definition exn_str (e : exn) : string :=
  match e with
  | KeyError k => "'" +:+ k +:+ "'"
  | ValueError m | TypeError m | ExternalError m => m
  end.

Inductive result (A : Type) : Type :=
  | Ok (a : A)
  | Raise (e : exn).
Arguments Ok {A} a.
Arguments Raise {A} e.

Inductive level := INFO | ERROR.
Record LogEntry := { log_level : level; log_msg : string }.

Definition M (S A : Type) : Type := S -> result A * S.

Definition ret {S A} (a : A) : M S A := fun s => (Ok a, s).
Definition raise {S A} (e : exn) : M S A := fun s => (Raise e, s).
Definition bind {S A B} (m : M S A) (k : A -> M S B) : M S B :=
  fun s => match m s with
           | (Ok a, s') => k a s'
           | (Raise e, s') => (Raise e, s')
           end.
(** [try: m  except Exception as e: h e]. *)
Definition try_except {S A} (m : M S A) (h : exn -> M S A) : M S A :=
  fun s => match m s with
           | (Ok a, s') => (Ok a, s')
           | (Raise e, s') => h e s'
           end.
Definition lift {S A} (r : result A) : M S A := fun s => (r, s).
Definition get {S} : M S S := fun s => (Ok s, s).
Definition modify {S} (f : S -> S) : M S unit := fun s => (Ok tt, f s).

Declare Scope py_scope.
Delimit Scope py_scope with py.
Notation "x <- m ;; k" := (bind m (fun x => k))
  (at level 100, m at next level, right associativity) : py_scope.
Notation "m ;;; k" := (bind m (fun _ => k))
  (at level 100, right associativity) : py_scope.

(** [for x in xs: body x]. *)
Fixpoint for_each {S A} (xs : list A) (body : A -> M S unit) : M S unit :=
  match xs with
  | [] => ret tt
  | x :: xs' => bind (body x) (fun _ => for_each xs' body)
  end.

(** The pure part of the monad: a computation that may raise. *)
Definition rbind {A B} (r : result A) (k : A -> result B) : result B :=
  match r with
  | Ok a => k a
  | Raise e => Raise e
  end.
Notation "x <~ r ;; k" := (rbind r (fun x => k))
  (at level 100, r at next level, right associativity) : py_scope.

(** [d[k]]: raises [KeyError] when the key is missing. *)
Definition dict_item_pure (d : PyDict) (k : string) : result PyVal :=
  match d !! k with
  | Some v => Ok v
  | None => Raise (KeyError k)
  end.

Local Open Scope py_scope.

(** ** The importer: [ChEMBLWeaviateImporter] *)

Module Importer.

(** The table [phase_desc] of [create_compound_description]. *)
Definition phase_desc : list (Z * string) :=
  [ (0, "not tested in clinical trials");
    (1, "in Phase I clinical trials");
    (2, "in Phase II clinical trials");
    (3, "in Phase III clinical trials");
    (4, "approved for clinical use") ].

(** [table.get(key, dflt)] for a dict with [int] keys: the entry whose
    key compares equal to [key]. *)
Fixpoint int_dict_get (table : list (Z * string)) (key : PyVal) (dflt : string)
  : string :=
  match table with
  | [] => dflt
  | (k, v) :: table' =>
      if py_eq (PyInt k) key then v else int_dict_get table' key dflt
  end.

Section Description.
Context `{FloatRepr}.

(** [create_compound_description], lines 82-107. *)
Definition create_compound_description (compound : PyDict) : result string :=
  let description :=
    "This is a "
    +:+ py_str (dict_get_default compound "molecule_type" (PyStr "compound"))
    +:+ " " in
  description <~
    (if truthy (dict_get compound "pref_name") then
       name <~ dict_item_pure compound "pref_name" ;;
       Ok (description +:+ "named " +:+ py_str name +:+ " ")
     else Ok description) ;;
  chembl_id <~ dict_item_pure compound "molecule_chembl_id" ;;
  let description :=
    description +:+ "with ChEMBL ID " +:+ py_str chembl_id +:+ ". " in
  description <~
    (if truthy (dict_get compound "max_phase") then
       phase <~ dict_item_pure compound "max_phase" ;;
       Ok (description +:+ int_dict_get phase_desc phase "")
     else Ok description) ;;
  Ok (py_strip description).

End Description.

(** *** The Weaviate collection and the external collaborators *)

(** An object of the collection [ChEMBLCompound]: its property bag and
    its vector. The collection maps the uuid of an object to it. *)
Record IndexedObject := {
  io_properties : PyDict;
  io_vector : list Q
}.

Abbreviation Collection := (gmap string IndexedObject).

(** What the importer can observe and change: whether the collection
    has been created, its objects, and the log. *)
Record World := {
  w_schema : bool;
  w_objects : Collection;
  w_log : list LogEntry
}.

Definition set_schema (b : bool) (w : World) : World :=
  {| w_schema := b; w_objects := w_objects w; w_log := w_log w |}.
Definition set_objects (o : Collection) (w : World) : World :=
  {| w_schema := w_schema w; w_objects := o; w_log := w_log w |}.
Definition add_log (e : LogEntry) (w : World) : World :=
  {| w_schema := w_schema w; w_objects := w_objects w;
     w_log := w_log w ++ [e] |}.

(** The libraries the importer calls.
    - [encode]: [self.model.encode(text)] followed by [.tolist()];
    - [generate_uuid5]: [weaviate.util.generate_uuid5];
    - [add_object_fault]: whether [batch.add_object] raises for this
      object, given the objects already in the collection;
    - [create_fault]: whether [client.collections.create] raises;
    - [fetch_molecules]: the ChEMBL request
      [molecule.filter(max_phase__gte=0).order_by('-max_phase')[:limit]]. *)
Record Collaborators := {
  encode : string -> result (list Q);
  generate_uuid5 : PyVal -> string;
  add_object_fault : Collection -> PyDict -> list Q -> string -> option exn;
  create_fault : option exn;
  fetch_molecules : Z -> result (list PyDict)
}.

Definition logger (l : level) (msg : string) : M World unit :=
  modify (add_log {| log_level := l; log_msg := msg |}).

(** [range(start, stop, step)]. *)
Definition py_range (start stop step : Z) : result (list Z) :=
  if Z.eqb step 0 then Raise (ValueError "range() arg 3 must not be zero")
  else
    let count :=
      if Z.ltb 0 step then (stop - start + step - 1) / step
      else (start - stop - step - 1) / (- step) in
    Ok ((fun k => start + k * step) <$> seqZ 0 count).

Section Importing.
Context `{FloatRepr}.
Variable lib : Collaborators.
Variable batch_size : Z.

(** [batch.add_object(properties, vector, uuid)]: the object is written
    under its uuid, replacing the object stored under that uuid if there
    is one, unless the call raises. *)
Definition add_object (properties : PyDict) (vector : list Q) (uuid : string)
  : M World unit :=
  fun w =>
    match add_object_fault lib (w_objects w) properties vector uuid with
    | Some e => (Raise e, w)
    | None =>
        (Ok tt,
         set_objects
           (<[ uuid := {| io_properties := properties; io_vector := vector |} ]>
              (w_objects w)) w)
    end.

(** The dict literal [data_object], lines 125-133. *)
Definition data_object (compound : PyDict) (description : string)
  : result PyDict :=
  chembl_id <~ dict_item_pure compound "molecule_chembl_id" ;;
  Ok (<[ "molecule_chembl_id" := chembl_id ]>
     (<[ "pref_name" := dict_get_default compound "pref_name" (PyStr "") ]>
     (<[ "molecule_type" :=
           dict_get_default compound "molecule_type" (PyStr "") ]>
     (<[ "max_phase" := dict_get_default compound "max_phase" (PyInt 0) ]>
     (<[ "therapeutic_flag" :=
           dict_get_default compound "therapeutic_flag" (PyBool false) ]>
     (<[ "structure_type" :=
           dict_get_default compound "structure_type" (PyStr "") ]>
     (<[ "description" := PyStr description ]> ∅))))))).

(** The body of the loop of [process_batch], lines 119-143. *)
Definition process_compound (compound : PyDict) : M World unit :=
  description <- lift (create_compound_description compound) ;;
  embedding <- lift (encode lib description) ;;
  properties <- lift (data_object compound description) ;;
  try_except
    (chembl_id <- lift (dict_item_pure compound "molecule_chembl_id") ;;
     add_object properties embedding (generate_uuid5 lib chembl_id))
    (fun e =>
       chembl_id <- lift (dict_item_pure compound "molecule_chembl_id") ;;
       logger ERROR
         ("Error adding compound " +:+ py_str chembl_id +:+ ": "
          +:+ exn_str e)).

(** [process_batch], lines 109-143. The batch context manager
    [collection.batch.dynamic()] is read as writing each object when
    [add_object] is called. *)
Definition process_batch (compounds : list PyDict) : M World unit :=
  for_each compounds process_compound.

(** [create_schema], lines 37-61. *)
Definition create_schema : M World unit :=
  try_except
    (match create_fault lib with
     | Some e => raise e
     | None => modify (set_schema true)
     end ;;;
     logger INFO "Schema created successfully")
    (fun e =>
       logger ERROR ("Error creating schema: " +:+ exn_str e) ;;; raise e).

(** [self.client.collections.get("ChEMBLCompound")], which the importer
    expects to raise when the collection does not exist. *)
Definition collections_get : M World unit :=
  w <- get ;;
  if w_schema w then ret tt
  else raise (ExternalError "collection ChEMBLCompound does not exist").

(** [fetch_chembl_data], lines 63-80. *)
Definition fetch_chembl_data (limit : Z) : M World (list PyDict) :=
  try_except
    (compounds <- lift (fetch_molecules lib limit) ;;
     logger INFO
       ("Fetched " +:+ pretty (Z.of_nat (length compounds))
        +:+ " compounds from ChEMBL") ;;;
     ret compounds)
    (fun e =>
       logger ERROR ("Error fetching ChEMBL data: " +:+ exn_str e) ;;;
       raise e).

(** [import_data], lines 145-173. The function has no [return]
    statement: a call that completes evaluates to [None]. The progress bar
    [tqdm] and the pause [time.sleep(0.1)] between batches change neither
    the collection nor the log and are left out. *)
Definition import_data (limit : Z) : M World PyVal :=
  try_except
    (try_except collections_get
       (fun _ => create_schema ;;; collections_get) ;;;
     compounds <- fetch_chembl_data limit ;;
     starts <- lift (py_range 0 (Z.of_nat (length compounds)) batch_size) ;;
     for_each starts
       (fun i =>
          let batch := py_slice compounds (Some i) (Some (i + batch_size)) in
          process_batch batch) ;;;
     logger INFO
       ("Successfully imported " +:+ pretty (Z.of_nat (length compounds))
        +:+ " compounds into Weaviate") ;;;
     ret PyNone)
    (fun e =>
       logger ERROR ("Error during import: " +:+ exn_str e) ;;; raise e).

End Importing.

End Importer.

(** ** The query utility: [ChEMBLQueryUtil] *)

Module Query.
Import Importer.

(** [obj.metadata]: the fields the utility reads. A field the engine
    did not fill is [None]. *)
Record Metadata := {
  distance : option Q;
  vector : option (list Q)
}.

(** One element of [.objects]. *)
Record QueryObject := {
  properties : PyDict;
  metadata : Metadata
}.

(** The filter dicts built by the utility:
    [{"path": [...], "operator": ..., "valueNumber"/"valueString": ...}]. *)
Inductive FilterValue :=
  | valueNumber (n : Z)
  | valueString (s : string).

Record WhereFilter := {
  path : list string;
  operator : string;
  value : FilterValue
}.

(** The query under construction: [collection.query.get()] or
    [collection.query.near_vector(...)], refined by [with_where],
    [with_limit] and [with_additional]. *)
Inductive QueryKind :=
  | Get
  | NearVector (near_vector : option (list Q)).

Record QueryBuilder := {
  q_kind : QueryKind;
  q_limit : option Z;
  q_return_metadata : list string;
  q_where : option WhereFilter;
  q_additional : list string
}.

Definition query_get : QueryBuilder :=
  {| q_kind := Get; q_limit := None; q_return_metadata := [];
     q_where := None; q_additional := [] |}.

Definition query_near_vector (near_vector : option (list Q)) (limit : Z)
  (return_metadata : list string) : QueryBuilder :=
  {| q_kind := NearVector near_vector; q_limit := Some limit;
     q_return_metadata := return_metadata;
     q_where := None; q_additional := [] |}.

Definition with_where (f : WhereFilter) (q : QueryBuilder) : QueryBuilder :=
  {| q_kind := q_kind q; q_limit := q_limit q;
     q_return_metadata := q_return_metadata q;
     q_where := Some f; q_additional := q_additional q |}.

Definition with_limit (n : Z) (q : QueryBuilder) : QueryBuilder :=
  {| q_kind := q_kind q; q_limit := Some n;
     q_return_metadata := q_return_metadata q;
     q_where := q_where q; q_additional := q_additional q |}.

Definition with_additional (a : list string) (q : QueryBuilder) : QueryBuilder :=
  {| q_kind := q_kind q; q_limit := q_limit q;
     q_return_metadata := q_return_metadata q;
     q_where := q_where q; q_additional := a |}.

(** The collaborators of the utility: the embedding model and the
    Weaviate query engine, which evaluates a built query ([.objects])
    against the objects of the collection. *)
Record Services := {
  model_encode : string -> result (list Q);
  objects : Collection -> QueryBuilder -> result (list QueryObject)
}.

(** [[f x for x in xs]] where [f] may raise. *)
Fixpoint comprehension {A B} (f : A -> result B) (xs : list A)
  : result (list B) :=
  match xs with
  | [] => Ok []
  | x :: xs' => y <~ f x ;; ys <~ comprehension f xs' ;; Ok (y :: ys)
  end.

(** [[f x for x in xs if c x]]: the condition is evaluated before the
    element. *)
Fixpoint comprehension_if {A B} (c : A -> result bool) (f : A -> result B)
  (xs : list A) : result (list B) :=
  match xs with
  | [] => Ok []
  | x :: xs' =>
      b <~ c x ;;
      if b : bool then
        y <~ f x ;; ys <~ comprehension_if c f xs' ;; Ok (y :: ys)
      else comprehension_if c f xs'
  end.

(** [{**obj.properties, "certainty": 1 - obj.metadata.distance}]. *)
Definition friendly (obj : QueryObject) : result PyDict :=
  match distance (metadata obj) with
  | Some d => Ok (<[ "certainty" := PyFloat (1 - d) ]> (properties obj))
  | None =>
      Raise (TypeError "unsupported operand type(s) for -: 'int' and 'NoneType'")
  end.

Definition log_error (msg : string) : M (list LogEntry) unit :=
  modify (fun l : list LogEntry =>
            (l ++ [{| log_level := ERROR; log_msg := msg |}])%list).

Section Util.
Variable svc : Services.
Variable collection : Collection.

(** [semantic_search], lines 27-59. *)
Definition semantic_search (query : string) (limit : Z)
  (additional_filters : option WhereFilter)
  : M (list LogEntry) (list PyDict) :=
  try_except
    (query_embedding <- lift (model_encode svc query) ;;
     let query_obj :=
       query_near_vector (Some query_embedding) limit ["distance"] in
     let query_obj :=
       match additional_filters with
       | Some f => with_where f query_obj
       | None => query_obj
       end in
     results <- lift (objects svc collection query_obj) ;;
     lift (comprehension friendly results))
    (fun e =>
       log_error ("Error in semantic search: " +:+ exn_str e) ;;; raise e).

(** [filter_by_phase], lines 61-90. *)
Definition filter_by_phase (min_phase : Z) (limit : Z)
  : M (list LogEntry) (list PyDict) :=
  try_except
    (let where_filter :=
       {| path := ["max_phase"]; operator := "GreaterThanEqual";
          value := valueNumber min_phase |} in
     results <-
       lift (objects svc collection
               (with_limit limit (with_where where_filter query_get))) ;;
     ret (properties <$> results))
    (fun e =>
       log_error ("Error in phase filter: " +:+ exn_str e) ;;; raise e).

(** [get_similar_compounds], lines 92-150. *)
Definition get_similar_compounds (chembl_id : string) (limit : Z)
  : M (list LogEntry) (list PyDict) :=
  try_except
    (let where_filter :=
       {| path := ["molecule_chembl_id"]; operator := "Equal";
          value := valueString chembl_id |} in
     reference <-
       lift (objects svc collection
               (with_additional ["vector"]
                  (with_where where_filter query_get))) ;;
     match reference with
     | [] =>
         raise (ValueError ("No compound found with ChEMBL ID: " +:+ chembl_id))
     | reference0 :: _ =>
         let ref_vector := vector (metadata reference0) in
         similar <-
           lift (objects svc collection
                   (query_near_vector ref_vector (limit + 1) ["distance"])) ;;
         results <-
           lift (comprehension_if
                   (fun obj =>
                      id <~ dict_item_pure (properties obj) "molecule_chembl_id" ;;
                      Ok (negb (py_eq id (PyStr chembl_id))))
                   friendly similar) ;;
         ret (py_slice results None (Some limit))
     end)
    (fun e =>
       log_error ("Error finding similar compounds: " +:+ exn_str e) ;;;
       raise e).

End Util.

End Query.

(** ** The contract of the query engine, and a reference engine *)

Module Engine.
Import Importer Query.

(** The number stored in a numeric property. *)
Definition stored_number (v : PyVal) : option Q :=
  match v with
  | PyInt z => Some (inject_Z z)
  | PyFloat q => Some q
  | _ => None
  end.

(** Whether a property bag satisfies a where filter. The utility builds
    two shapes of filter: [Equal] on a text property and
    [GreaterThanEqual] on a numeric one. *)
Definition eval_where (f : WhereFilter) (props : PyDict) : bool :=
  match path f with
  | [k] =>
      match props !! k, value f with
      | Some (PyStr s), valueString t =>
          String.eqb (operator f) "Equal" && String.eqb s t
      | Some v, valueNumber n =>
          String.eqb (operator f) "GreaterThanEqual"
          && match stored_number v with
             | Some q => Qle_bool (inject_Z n) q
             | None => false
             end
      | _, _ => false
      end
  | _ => false
  end.

(** [closer a b]: [a] is reported at a distance not larger than [b]'s. *)
Definition closer (a b : QueryObject) : Prop :=
  forall da db,
    distance (metadata a) = Some da -> distance (metadata b) = Some db ->
    (da <= db)%Q.

(** What the utility relies on from the engine. Every returned object
    is an object of the collection and satisfies the where filter of
    the query; a limit bounds the number of objects; a near-vector query
    that asks for the distance reports it, nearest first. *)
Record EngineLaws
  (objects : Collection -> QueryBuilder -> result (list QueryObject)) : Prop := {
  law_stored : forall coll q hits,
    objects coll q = Ok hits ->
    Forall (fun h => exists uuid o,
                coll !! uuid = Some o /\ properties h = io_properties o) hits;
  law_where : forall coll q f hits,
    objects coll q = Ok hits -> q_where q = Some f ->
    Forall (fun h => eval_where f (properties h) = true) hits;
  law_limit : forall coll q n hits,
    objects coll q = Ok hits -> q_limit q = Some n -> 0 <= n ->
    Z.of_nat (length hits) <= n;
  law_near : forall coll q v hits,
    objects coll q = Ok hits -> q_kind q = NearVector v ->
    In "distance" (q_return_metadata q) ->
    Forall (fun h => is_Some (distance (metadata h))) hits
    /\ StronglySorted closer hits
}.

(** *** Reference engine

    Exhaustive search over the objects of the collection, in the order
    of their uuids; the distance of two vectors is [s / (1 + s)] for
    [s] the squared Euclidean distance, a value in [[0,1)]. *)

Fixpoint sq_dist (v w : list Q) : Q :=
  match v, w with
  | x :: v', y :: w' => ((x - y) * (x - y) + sq_dist v' w')%Q
  | _, _ => 0%Q
  end.

Definition ref_distance (v w : list Q) : Q :=
  (sq_dist v w / (1 + sq_dist v w))%Q.

Definition hit_key (h : QueryObject) : Q :=
  default 0%Q (distance (metadata h)).

Definition key_le (a b : QueryObject) : Prop := (hit_key a <= hit_key b)%Q.

Fixpoint insert_hit (h : QueryObject) (l : list QueryObject)
  : list QueryObject :=
  match l with
  | [] => [h]
  | x :: l' =>
      if Qle_bool (hit_key h) (hit_key x) then h :: l
      else x :: insert_hit h l'
  end.

Definition sort_hits (l : list QueryObject) : list QueryObject :=
  foldr insert_hit [] l.

Definition matching (coll : Collection) (q : QueryBuilder)
  : list IndexedObject :=
  List.filter
    (fun o => match q_where q with
              | Some f => eval_where f (io_properties o)
              | None => true
              end)
    (snd <$> map_to_list coll).

Definition has_string (s : string) (l : list string) : bool :=
  existsb (String.eqb s) l.

Definition ref_hits (coll : Collection) (q : QueryBuilder)
  : result (list QueryObject) :=
  match q_kind q with
  | Get =>
      Ok ((fun o =>
             {| properties := io_properties o;
                metadata :=
                  {| distance := None;
                     vector := if has_string "vector" (q_additional q)
                               then Some (io_vector o) else None |} |})
          <$> matching coll q)
  | NearVector (Some v) =>
      Ok (sort_hits
            ((fun o =>
                {| properties := io_properties o;
                   metadata :=
                     {| distance := Some (ref_distance v (io_vector o));
                        vector := None |} |})
             <$> matching coll q))
  | NearVector None => Raise (ExternalError "near_vector: no vector given")
  end.

Definition ref_objects (coll : Collection) (q : QueryBuilder)
  : result (list QueryObject) :=
  hits <~ ref_hits coll q ;;
  match q_limit q with
  | None => Ok hits
  | Some n =>
      if Z.ltb n 0 then Raise (ExternalError "limit must not be negative")
      else Ok (take (Z.to_nat n) hits)
  end.

End Engine.

(** ** Concrete records, collaborators and collections *)

Module Examples.
Import Importer Query Engine.

Definition plain_float_repr : FloatRepr := fun _ => "0.0".

Definition record (chembl_id : string) (fields : list (string * PyVal))
  : PyDict :=
  <[ "molecule_chembl_id" := PyStr chembl_id ]> (list_to_map fields).

Definition aspirin : PyDict :=
  record "CHEMBL25"
    [ ("molecule_type", PyStr "Small molecule");
      ("pref_name", PyStr "Aspirin");
      ("max_phase", PyInt 4) ].

Definition chembl99 : PyDict := record "CHEMBL99" [].

Definition untested : PyDict := record "CHEMBL1" [ ("max_phase", PyInt 0) ].

Definition unnamed : PyDict := record "CHEMBL7" [ ("pref_name", PyNone) ].

Definition phase_record (chembl_id : string) (phase : Z) : PyDict :=
  record chembl_id [ ("max_phase", PyInt phase) ].

(** A toy embedding: the length of the text and the code of its last
    character. *)
Definition toy_encode (text : string) : result (list Q) :=
  let l := list_ascii_of_string text in
  Ok [ inject_Z (Z.of_nat (length l));
       inject_Z (Z.of_N (N_of_ascii (List.last l "000"%char))) ].

Definition toy_uuid5 (v : PyVal) : string :=
  "uuid5:" +:+ @py_str plain_float_repr v.

Definition five_records : list PyDict :=
  [ phase_record "CHEMBL10" 0; phase_record "CHEMBL11" 2;
    phase_record "CHEMBL12" 3; phase_record "CHEMBL13" 4;
    phase_record "CHEMBL14" 4 ].

(** All collaborators healthy. *)
Definition healthy : Collaborators :=
  {| encode := toy_encode;
     generate_uuid5 := toy_uuid5;
     add_object_fault := fun _ _ _ _ => None;
     create_fault := None;
     fetch_molecules := fun limit => Ok (py_slice five_records None (Some limit)) |}.

(** The embedding model fails on the description of CHEMBL99. *)
Definition encode_fails : Collaborators :=
  {| encode := fun text =>
       if String.eqb text "This is a compound with ChEMBL ID CHEMBL99."
       then Raise (ExternalError "encode failed")
       else toy_encode text;
     generate_uuid5 := toy_uuid5;
     add_object_fault := fun _ _ _ _ => None;
     create_fault := None;
     fetch_molecules := fun _ => Ok [chembl99; aspirin] |}.

(** The store rejects the object of CHEMBL99. *)
Definition write_fails : Collaborators :=
  {| encode := toy_encode;
     generate_uuid5 := toy_uuid5;
     add_object_fault := fun _ _ _ uuid =>
       if String.eqb uuid "uuid5:CHEMBL99"
       then Some (ExternalError "object rejected")
       else None;
     create_fault := None;
     fetch_molecules := fun _ => Ok [chembl99; aspirin] |}.


(** The request to ChEMBL fails. *)
Definition chembl_down : Collaborators :=
  {| encode := toy_encode;
     generate_uuid5 := toy_uuid5;
     add_object_fault := fun _ _ _ _ => None;
     create_fault := None;
     fetch_molecules := fun _ => Raise (ExternalError "ChEMBL unreachable") |}.

(** A record whose phase is a text, as newer ChEMBL releases return it. *)
Definition text_phase : PyDict :=
  record "CHEMBL2" [ ("max_phase", PyStr "4.0") ].

(** How a call ended: [None] when it returned, the exception when it
    raised. *)
Definition outcome {A S} (run : result A * S) : option exn :=
  match fst run with
  | Ok _ => None
  | Raise e => Some e
  end.

(** The hits an engine call returned ([[]] if it raised), and whether
    it returned at least one. *)
Definition hits_of (r : result (list QueryObject)) : list QueryObject :=
  match r with
  | Ok hits => hits
  | Raise _ => []
  end.

Definition answered (r : result (list QueryObject)) : bool :=
  match r with
  | Ok _ => true
  | Raise _ => false
  end.

Definition found (r : result (list QueryObject)) : bool :=
  match r with
  | Ok (_ :: _) => true
  | _ => false
  end.

Definition no_hit : QueryObject :=
  {| properties := ∅; metadata := {| distance := None; vector := None |} |}.

(** Whether one of the hits is the compound [chembl_id] itself. *)
Definition self_among (chembl_id : string) (hits : list QueryObject) : bool :=
  existsb
    (fun h => match properties h !! "molecule_chembl_id" with
              | Some (PyStr s) => String.eqb s chembl_id
              | _ => false
              end)
    hits.

(** The filter [max_phase >= 3]. *)
Definition phase_3_filter : WhereFilter :=
  {| path := ["max_phase"]; operator := "GreaterThanEqual";
     value := valueNumber 3 |}.

Definition fresh : World :=
  {| w_schema := false; w_objects := ∅; w_log := [] |}.

(** The collection after a healthy import of [five_records]. *)
Definition five_phases : Collection :=
  Eval vm_compute in
    w_objects (snd (@import_data plain_float_repr healthy 100 1000 fresh)).

Definition reference : Services :=
  {| model_encode := toy_encode; objects := ref_objects |}.

(** The list a call of the utility returned ([[]] if it raised). *)
Definition results_of {S} (run : result (list PyDict) * S) : list PyDict :=
  match fst run with
  | Ok entries => entries
  | Raise _ => []
  end.

(** Whether a call returned a list and logged nothing. *)
Definition returned (run : result (list PyDict) * list LogEntry) : bool :=
  match run with
  | (Ok _, []) => true
  | _ => false
  end.

Definition ids (entries : list PyDict) : list (option PyVal) :=
  (fun entry : PyDict => entry !! "molecule_chembl_id") <$> entries.

Definition phases (entries : list PyDict) : list (option PyVal) :=
  (fun entry : PyDict => entry !! "max_phase") <$> entries.

End Examples.

(** ** Notions used to state the properties *)

Module Props.
Import Importer Query Engine.

Section Importer.
Context `{FloatRepr}.
Variable lib : Collaborators.

(** The description and the embedding of the record are computed
    without an exception. *)
Definition embeddable (compound : PyDict) : Prop :=
  exists description embedding,
    create_compound_description compound = Ok description
    /\ encode lib description = Ok embedding.

(** What [process_compound] hands to [batch.add_object] for a record:
    properties, vector and uuid. *)
Definition prepared (compound : PyDict)
  : result (PyDict * list Q * string) :=
  description <~ create_compound_description compound ;;
  embedding <~ encode lib description ;;
  properties <~ data_object compound description ;;
  chembl_id <~ dict_item_pure compound "molecule_chembl_id" ;;
  Ok (properties, embedding, generate_uuid5 lib chembl_id).

(** The line logged when [batch.add_object] raises [e] for a record. *)
Definition error_entry (compound : PyDict) (e : exn) : LogEntry :=
  {| log_level := ERROR;
     log_msg := "Error adding compound "
                +:+ py_str (dict_get compound "molecule_chembl_id")
                +:+ ": " +:+ exn_str e |}.

(** The last line logged by a completed [import_data]. *)
Definition success_entry (fetched : list PyDict) : LogEntry :=
  {| log_level := INFO;
     log_msg := "Successfully imported "
                +:+ pretty (Z.of_nat (length fetched))
                +:+ " compounds into Weaviate" |}.

(** Every object of the collection is stored under the uuid derived
    from its own [molecule_chembl_id]. *)
Definition keyed_by_uuid5 (coll : Collection) : Prop :=
  forall uuid o,
    coll !! uuid = Some o ->
    exists chembl_id,
      io_properties o !! "molecule_chembl_id" = Some chembl_id
      /\ uuid = generate_uuid5 lib chembl_id.

End Importer.

(** The collection holds exactly one object whose [molecule_chembl_id]
    is [chembl_id]. *)
Definition exactly_one_object (coll : Collection) (chembl_id : PyVal) : Prop :=
  exists uuid o,
    coll !! uuid = Some o
    /\ io_properties o !! "molecule_chembl_id" = Some chembl_id
    /\ forall uuid' o',
         coll !! uuid' = Some o' ->
         io_properties o' !! "molecule_chembl_id" = Some chembl_id ->
         uuid' = uuid.

(** The seven properties of the schema, with the default that
    [data_object] gives each optional one. *)
Definition optional_defaults : list (string * PyVal) :=
  [ ("pref_name", PyStr ""); ("molecule_type", PyStr "");
    ("max_phase", PyInt 0); ("therapeutic_flag", PyBool false);
    ("structure_type", PyStr "") ].

Definition seven_properties : gset string :=
  {[ "molecule_chembl_id"; "pref_name"; "molecule_type"; "max_phase";
     "therapeutic_flag"; "structure_type"; "description" ]}.

(** The score of a result entry. *)
Definition certainty (entry : PyDict) : option Q :=
  match entry !! "certainty" with
  | Some (PyFloat q) => Some q
  | _ => None
  end.

(** [a] is scored at least as high as [b]. *)
Definition scored_above (a b : PyDict) : Prop :=
  exists sa sb, certainty a = Some sa /\ certainty b = Some sb /\ (sb <= sa)%Q.

(** The [max_phase] of a result entry is a number not below [min_phase]. *)
Definition phase_at_least (min_phase : Z) (entry : PyDict) : Prop :=
  exists v q,
    entry !! "max_phase" = Some v /\ stored_number v = Some q
    /\ (inject_Z min_phase <= q)%Q.

(** The three queries the utility sends to the engine. *)
Definition reference_query (chembl_id : string) : QueryBuilder :=
  with_additional ["vector"]
    (with_where {| path := ["molecule_chembl_id"]; operator := "Equal";
                   value := valueString chembl_id |} query_get).

Definition phase_query (min_phase limit : Z) : QueryBuilder :=
  with_limit limit
    (with_where {| path := ["max_phase"]; operator := "GreaterThanEqual";
                   value := valueNumber min_phase |} query_get).

Definition search_query (embedding : list Q) (limit : Z)
  (additional_filters : option WhereFilter) : QueryBuilder :=
  let q := query_near_vector (Some embedding) limit ["distance"] in
  match additional_filters with
  | Some f => with_where f q
  | None => q
  end.

(** The exception raised for a reference compound that is not found. *)
Definition not_found (chembl_id : string) : exn :=
  ValueError ("No compound found with ChEMBL ID: " +:+ chembl_id).

(** A result entry: the properties of a hit and its score. *)
Definition entry_of (h : QueryObject) (entry : PyDict) : Prop :=
  exists d,
    distance (metadata h) = Some d
    /\ entry = <[ "certainty" := PyFloat (1 - d) ]> (properties h).

(** The [molecule_chembl_id] of a result entry does not compare equal
    to [chembl_id]. *)
Definition other_than (chembl_id : string) (entry : PyDict) : Prop :=
  exists v,
    entry !! "molecule_chembl_id" = Some v
    /\ py_eq v (PyStr chembl_id) = false.

(** No object of the collection has [chembl_id] as its
    [molecule_chembl_id]. *)
Definition absent_from (coll : Collection) (chembl_id : string) : Prop :=
  forall uuid o,
    coll !! uuid = Some o ->
    io_properties o !! "molecule_chembl_id" <> Some (PyStr chembl_id).

(** The line logged by [get_similar_compounds] before it re-raises. *)
Definition similar_error_entry (e : exn) : LogEntry :=
  {| log_level := ERROR;
     log_msg := "Error finding similar compounds: " +:+ exn_str e |}.

(** The distance reported for a hit lies in [[0,1]]. *)
Definition normalized (h : QueryObject) : Prop :=
  forall d, distance (metadata h) = Some d -> (0 <= d <= 1)%Q.

Definition unit_score (entry : PyDict) : Prop :=
  exists s, certainty entry = Some s /\ (0 <= s <= 1)%Q.

(** *** The text of a description *)

Section Describing.
Context `{FloatRepr}.

(** The part "named ... " of a description: present when [pref_name]
    is truthy. *)
Definition named_part (compound : PyDict) : string :=
  if truthy (dict_get compound "pref_name")
  then "named " +:+ py_str (dict_get compound "pref_name") +:+ " "
  else "".

(** The phrase selected by [max_phase], empty when there is none. *)
Definition phase_part (compound : PyDict) : string :=
  if truthy (dict_get compound "max_phase")
  then int_dict_get phase_desc (dict_get compound "max_phase") ""
  else "".

(** The description as a sentence that ends with the full stop after
    the ChEMBL ID, followed, when there is a phrase, by one blank and the
    phrase. *)
Definition sentence (compound : PyDict) (chembl_id : PyVal) : string :=
  "This is a "
  +:+ py_str (dict_get_default compound "molecule_type" (PyStr "compound"))
  +:+ " " +:+ named_part compound
  +:+ "with ChEMBL ID " +:+ py_str chembl_id +:+ "."
  +:+ (if String.eqb (phase_part compound) "" then ""
       else " " +:+ phase_part compound).

End Describing.

(** *** The effect of a batch without write failures *)

Section Writing.
Context `{FloatRepr}.
Variable lib : Collaborators.

(** The description or the embedding of the record raises [e]. *)
Definition unembeddable (compound : PyDict) (e : exn) : Prop :=
  create_compound_description compound = Raise e
  \/ exists description,
       create_compound_description compound = Ok description
       /\ encode lib description = Raise e.

(** The store accepts every object. *)
Definition accepts_all : Prop :=
  forall objs properties embedding uuid,
    add_object_fault lib objs properties embedding uuid = None.

(** The collection after the objects of the records have been written
    over [objs], in the order of the records. *)
Definition written (compounds : list PyDict) (objs : Collection) : Collection :=
  foldl
    (fun (acc : Collection) compound =>
       match prepared lib compound with
       | Ok (properties, embedding, uuid) =>
           <[ uuid := {| io_properties := properties;
                         io_vector := embedding |} ]> acc
       | Raise _ => acc
       end)
    objs compounds.

(** The first statement of [import_data]: get the collection, and
    create it first when the get raises. *)
Definition ensure_collection : M World unit :=
  try_except collections_get (fun _ => create_schema lib ;;; collections_get).

(** What the [except] clause of [import_data] does with an exception:
    log it and raise it again. *)
Definition import_error_entry (e : exn) : LogEntry :=
  {| log_level := ERROR; log_msg := "Error during import: " +:+ exn_str e |}.

Definition import_failed (e : exn) (w : World) : result PyVal * World :=
  (Raise e, add_log (import_error_entry e) w).

(** The lines logged by [fetch_chembl_data]. *)
Definition fetched_entry (compounds : list PyDict) : LogEntry :=
  {| log_level := INFO;
     log_msg := "Fetched " +:+ pretty (Z.of_nat (length compounds))
                +:+ " compounds from ChEMBL" |}.

Definition fetch_error_entry (e : exn) : LogEntry :=
  {| log_level := ERROR;
     log_msg := "Error fetching ChEMBL data: " +:+ exn_str e |}.

(** The collection exists or can be created. *)
Definition collection_available (w : World) : Prop :=
  w_schema w = true \/ create_fault lib = None.

End Writing.

(** The line logged by a query function before it re-raises. *)
Definition query_error_entry (prefix : string) (e : exn) : LogEntry :=
  {| log_level := ERROR; log_msg := prefix +:+ exn_str e |}.

(** The log after a call of a query function: untouched when it
    returns, one error line longer when it raises. *)
Definition log_after {A} (prefix : string) (log : list LogEntry)
  (r : result A) : list LogEntry :=
  match r with
  | Ok _ => log
  | Raise e => (log ++ [query_error_entry prefix e])%list
  end.

(** A result entry carries the properties of an object of the
    collection, and nothing else but its score. *)
Definition scored_object (coll : Collection) (entry : PyDict) : Prop :=
  exists uuid o d,
    coll !! uuid = Some o
    /\ entry = <[ "certainty" := PyFloat (1 - d) ]> (io_properties o).

End Props.

(** * Properties *)

Import Importer Query Engine Props.

(** ** The monad *)

Lemma bind_Ok_inv {S A B} (m : M S A) (k : A -> M S B) s b s' :
  bind m k s = (Ok b, s') ->
  exists a s1, m s = (Ok a, s1) /\ k a s1 = (Ok b, s').
Proof.
  unfold bind. destruct (m s) as [[a|e] s1]; intros Hk.
  - eauto.
  - discriminate.
Qed.

Lemma bind_Ok {S A B} (m : M S A) (k : A -> M S B) s a s1 :
  m s = (Ok a, s1) -> bind m k s = k a s1.
Proof. unfold bind. intros ->. reflexivity. Qed.

Lemma bind_Raise {S A B} (m : M S A) (k : A -> M S B) s e s1 :
  m s = (Raise e, s1) -> bind m k s = (Raise e, s1).
Proof. unfold bind. intros ->. reflexivity. Qed.

Lemma for_each_app {S A} (body : A -> M S unit) l1 l2 s :
  for_each (l1 ++ l2) body s =
  match for_each l1 body s with
  | (Ok _, s1) => for_each l2 body s1
  | (Raise e, s1) => (Raise e, s1)
  end.
Proof.
  revert s. induction l1 as [|x l1 IH]; intros s; simpl.
  - reflexivity.
  - unfold bind. destruct (body x s) as [[[]|e] s1]; [apply IH | reflexivity].
Qed.

Lemma rbind_Ok_inv {A B} (r : result A) (k : A -> result B) b :
  rbind r k = Ok b -> exists a, r = Ok a /\ k a = Ok b.
Proof. destruct r; simpl; [eauto | discriminate]. Qed.

(** ** The description of a compound *)

Section DescriptionFacts.
Context `{FloatRepr}.

(** The phrase table, read at an [int] key. *)
Lemma phase_desc_int (z : Z) :
  int_dict_get phase_desc (PyInt z) "" =
  if Z.eqb z 0 then "not tested in clinical trials"
  else if Z.eqb z 1 then "in Phase I clinical trials"
  else if Z.eqb z 2 then "in Phase II clinical trials"
  else if Z.eqb z 3 then "in Phase III clinical trials"
  else if Z.eqb z 4 then "approved for clinical use"
  else "".
Proof.
  assert (Hq : forall k, py_eq (PyInt k) (PyInt z) = Z.eqb z k).
  { intros k. unfold py_eq; simpl. unfold Qeq_bool; simpl.
    rewrite !Z.mul_1_r. apply Z.eqb_sym. }
  simpl. rewrite !Hq. reflexivity.
Qed.

(** A description is only built for a record that has its
    [molecule_chembl_id]. *)
Lemma description_needs_id (compound : PyDict) description :
  create_compound_description compound = Ok description ->
  exists chembl_id, compound !! "molecule_chembl_id" = Some chembl_id.
Proof.
  unfold create_compound_description. intros Hd.
  apply rbind_Ok_inv in Hd as (d1 & _ & Hd).
  apply rbind_Ok_inv in Hd as (id & Hid & _).
  unfold dict_item_pure in Hid.
  destruct (compound !! "molecule_chembl_id") as [v|]; [eauto | discriminate].
Qed.

(** *** Stripping a description *)

Lemma list_of_append (s t : string) :
  list_ascii_of_string (s +:+ t) =
  (list_ascii_of_string s ++ list_ascii_of_string t)%list.
Proof. induction s as [|c s IH]; simpl; [done | by rewrite IH]. Qed.

Lemma string_of_app (l k : list ascii) :
  string_of_list_ascii (l ++ k) =
  string_of_list_ascii l +:+ string_of_list_ascii k.
Proof. induction l as [|c l IH]; simpl; [done | by rewrite IH]. Qed.

Lemma append_cons (c : ascii) (s t : string) :
  String c s +:+ t = String c (s +:+ t).
Proof. reflexivity. Qed.

Lemma append_nil_r (s : string) : s +:+ "" = s.
Proof.
  induction s as [|c s IH]; [done | by rewrite append_cons, IH].
Qed.

Lemma rstrip_list_snoc (l : list ascii) (c : ascii) :
  rstrip_list (l ++ [c]) = if is_space c then rstrip_list l else (l ++ [c])%list.
Proof.
  unfold rstrip_list. rewrite rev_app_distr. simpl.
  destruct (is_space c); [done|]. simpl. by rewrite rev_involutive.
Qed.

(** A text that starts with "This is a " and ends with ". " loses its
    last blank when stripped, and nothing once a phrase that does not end
    in white space follows it. *)
Lemma strip_sentence (head : string) (m : list ascii) :
  list_ascii_of_string head =
    (list_ascii_of_string "This is a " ++ m ++ list_ascii_of_string ". ")%list ->
  py_strip head =
    string_of_list_ascii (list_ascii_of_string "This is a " ++ m ++ ["."%char])
  /\ forall (phrase : string) (p : list ascii) (c : ascii),
       list_ascii_of_string phrase = (p ++ [c])%list -> is_space c = false ->
       py_strip (head +:+ phrase) = py_strip head +:+ " " +:+ phrase.
Proof.
  intros Hhead.
  assert (Hstrip : py_strip head =
            string_of_list_ascii
              (list_ascii_of_string "This is a " ++ m ++ ["."%char])).
  { unfold py_strip. rewrite Hhead. f_equal. simpl.
    change (m ++ ["."%char; " "%char])%list
      with (m ++ ["."%char] ++ [" "%char])%list.
    rewrite !app_assoc, !app_comm_cons, rstrip_list_snoc. simpl.
    rewrite !app_comm_cons, rstrip_list_snoc. reflexivity. }
  split; [exact Hstrip|].
  intros phrase p c Hp Hc. rewrite Hstrip.
  unfold py_strip. rewrite list_of_append, Hhead, Hp. simpl.
  rewrite !app_assoc, !app_comm_cons, rstrip_list_snoc, Hc.
  rewrite <- !app_comm_cons, <- !app_assoc. simpl.
  rewrite <- (string_of_list_ascii_of_string phrase), Hp.
  rewrite !append_cons. repeat f_equal.
  change (String " " ("" +:+ string_of_list_ascii (p ++ [c])))
    with (string_of_list_ascii ([" "%char] ++ (p ++ [c]))).
  rewrite <- string_of_app, <- app_assoc. reflexivity.
Qed.

(** For a record whose [max_phase] is an [int], the description is the
    one of the record without [max_phase], followed by a blank and the
    phrase of the table for the phases 1 to 4, and by nothing for any other
    value, 0 included. *)
Arguments int_dict_get : simpl never.

Lemma description_with_int_phase (compound : PyDict) (z : Z) (base : string) :
  compound !! "max_phase" = Some (PyInt z) ->
  create_compound_description (delete "max_phase" compound) = Ok base ->
  create_compound_description compound =
    Ok (if Z.leb 1 z && Z.leb z 4
        then base +:+ " " +:+ int_dict_get phase_desc (PyInt z) ""
        else base).
Proof.
  intros Hz. unfold create_compound_description, dict_get, dict_get_default,
    dict_item_pure.
  rewrite lookup_delete_eq, !lookup_delete_ne, Hz by done. simpl.
  set (kind := py_str (default (PyStr "compound") (compound !! "molecule_type"))).
  assert (Hshape : forall d1 id m1,
            list_ascii_of_string d1 =
              (list_ascii_of_string "This is a " ++ m1)%list ->
            Ok (py_strip (d1 +:+ "with ChEMBL ID " +:+ py_str id +:+ ". ")) = Ok base ->
            (description <~
               (if negb (Z.eqb z 0)
                then Ok ((d1 +:+ "with ChEMBL ID " +:+ py_str id +:+ ". ")
                         +:+ int_dict_get phase_desc (PyInt z) "")
                else Ok (d1 +:+ "with ChEMBL ID " +:+ py_str id +:+ ". ")) ;;
             Ok (py_strip description))
            = Ok (if Z.leb 1 z && Z.leb z 4
                  then base +:+ " " +:+ int_dict_get phase_desc (PyInt z) ""
                  else base)).
  { intros d1 id m1 Hd1 [= <-].
    set (head := d1 +:+ "with ChEMBL ID " +:+ py_str id +:+ ". ").
    destruct (strip_sentence head
                (m1 ++ list_ascii_of_string "with ChEMBL ID "
                    ++ list_ascii_of_string (py_str id))) as [_ Hphrase].
    { unfold head. rewrite !list_of_append, Hd1, <- !app_assoc. reflexivity. }
    rewrite phase_desc_int.
    pose proof (append_nil_r head) as Hnil.
    destruct (Z.eqb_spec z 0) as [->|H0]; [reflexivity|]. simpl.
    destruct (Z.eqb_spec z 1) as [->|H1];
      [simpl; f_equal; eapply Hphrase with (p := list_ascii_of_string "in Phase I clinical trial"); reflexivity|].
    destruct (Z.eqb_spec z 2) as [->|H2];
      [simpl; f_equal; eapply Hphrase with (p := list_ascii_of_string "in Phase II clinical trial"); reflexivity|].
    destruct (Z.eqb_spec z 3) as [->|H3];
      [simpl; f_equal; eapply Hphrase with (p := list_ascii_of_string "in Phase III clinical trial"); reflexivity|].
    destruct (Z.eqb_spec z 4) as [->|H4];
      [simpl; f_equal; eapply Hphrase with (p := list_ascii_of_string "approved for clinical us"); reflexivity|].
    rewrite Hnil.
    replace (Z.leb 1 z && Z.leb z 4) with false; [reflexivity|].
    symmetry. apply andb_false_iff.
    destruct (Z.leb_spec 1 z); [right; apply Z.leb_gt; lia | by left]. }
  destruct (truthy (default PyNone (compound !! "pref_name"))).
  - destruct (compound !! "pref_name") as [name|]; simpl; [|discriminate].
    destruct (compound !! "molecule_chembl_id") as [id|]; simpl; [|discriminate].
    apply Hshape with
      (m1 := (list_ascii_of_string kind ++ list_ascii_of_string " "
              ++ list_ascii_of_string "named "
              ++ list_ascii_of_string (py_str name)
              ++ list_ascii_of_string " ")%list).
    rewrite !list_of_append, <- ?app_assoc. reflexivity.
  - simpl.
    destruct (compound !! "molecule_chembl_id") as [id|]; simpl; [|discriminate].
    apply Hshape with
      (m1 := (list_ascii_of_string kind ++ list_ascii_of_string " ")%list).
    rewrite !list_of_append, <- ?app_assoc. reflexivity.
Qed.

(** C4: the description of the record [{molecule_type: "Small molecule",
    pref_name: "Aspirin", molecule_chembl_id: "CHEMBL25", max_phase: 4}] is
    "This is a Small molecule named Aspirin with ChEMBL ID CHEMBL25.
    approved for clinical use", and the description of the record that only
    has [molecule_chembl_id: "CHEMBL99"] is "This is a compound with ChEMBL
    ID CHEMBL99.", the trailing blank being stripped. *)
Theorem create_compound_description_examples :
  create_compound_description Examples.aspirin =
    Ok "This is a Small molecule named Aspirin with ChEMBL ID CHEMBL25. approved for clinical use"
  /\ create_compound_description Examples.chembl99 =
    Ok "This is a compound with ChEMBL ID CHEMBL99.".
Proof. split; vm_compute; reflexivity. Qed.

(** C3, at the value the code misses: for a record whose [max_phase] is
    present and equal to 0, [phase_desc] does hold the phrase "not tested in
    clinical trials", but the guard [if compound.get('max_phase')] is false
    for 0 and the description ends after the ChEMBL ID; for the phases 1 to
    4 the phrase is appended, and for an integer outside 0-4 nothing is. *)
Theorem description_of_phase_zero_has_no_phrase :
  int_dict_get phase_desc (PyInt 0) "" = "not tested in clinical trials"
  /\ create_compound_description Examples.untested =
       Ok "This is a compound with ChEMBL ID CHEMBL1."
  /\ create_compound_description (Examples.phase_record "CHEMBL1" 1) =
       Ok "This is a compound with ChEMBL ID CHEMBL1. in Phase I clinical trials"
  /\ create_compound_description (Examples.phase_record "CHEMBL1" 2) =
       Ok "This is a compound with ChEMBL ID CHEMBL1. in Phase II clinical trials"
  /\ create_compound_description (Examples.phase_record "CHEMBL1" 3) =
       Ok "This is a compound with ChEMBL ID CHEMBL1. in Phase III clinical trials"
  /\ create_compound_description (Examples.phase_record "CHEMBL1" 4) =
       Ok "This is a compound with ChEMBL ID CHEMBL1. approved for clinical use"
  /\ create_compound_description (Examples.phase_record "CHEMBL1" 5) =
       Ok "This is a compound with ChEMBL ID CHEMBL1.".
Proof. repeat split; vm_compute; reflexivity. Qed.

End DescriptionFacts.

(** ** The shape of a description *)

Section DescriptionShape.
Context `{FloatRepr}.

Lemma list_ascii_inj (s t : string) :
  list_ascii_of_string s = list_ascii_of_string t -> s = t.
Proof.
  intros Heq. rewrite <- (string_of_list_ascii_of_string s),
    <- (string_of_list_ascii_of_string t). by rewrite Heq.
Qed.

(** A phrase of the table does not end in white space. *)
Lemma phase_phrase_end (v : PyVal) :
  int_dict_get phase_desc v "" = ""
  \/ exists p c,
       list_ascii_of_string (int_dict_get phase_desc v "") = (p ++ [c])%list
       /\ is_space c = false.
Proof.
  unfold int_dict_get, phase_desc.
  repeat (destruct (py_eq _ v);
          [right;
           match goal with
           | |- exists p c, list_ascii_of_string ?s = _ /\ _ =>
               exists (removelast (list_ascii_of_string s)),
                      (List.last (list_ascii_of_string s) " "%char);
               split; reflexivity
           end|]).
  by left.
Qed.

(** Stripping the text built by [create_compound_description]: the blank
    after the full stop goes when no phrase follows, and nothing goes when
    one does. *)
Lemma strip_description (d1 : string) (m1 : list ascii) (id : string) :
  list_ascii_of_string d1 = (list_ascii_of_string "This is a " ++ m1)%list ->
  py_strip (d1 +:+ "with ChEMBL ID " +:+ id +:+ ". ") =
    d1 +:+ "with ChEMBL ID " +:+ id +:+ "."
  /\ forall ph,
       (ph = ""
        \/ exists p c, list_ascii_of_string ph = (p ++ [c])%list
                       /\ is_space c = false) ->
       py_strip ((d1 +:+ "with ChEMBL ID " +:+ id +:+ ". ") +:+ ph) =
       d1 +:+ "with ChEMBL ID " +:+ id +:+ "."
          +:+ (if String.eqb ph "" then "" else " " +:+ ph).
Proof.
  intros Hd1.
  set (head := d1 +:+ "with ChEMBL ID " +:+ id +:+ ". ").
  destruct (strip_sentence head
              (m1 ++ list_ascii_of_string "with ChEMBL ID "
                  ++ list_ascii_of_string id)) as [Hstrip Hphrase].
  { unfold head. rewrite !list_of_append, Hd1, <- !app_assoc. reflexivity. }
  assert (Hbase : py_strip head = d1 +:+ "with ChEMBL ID " +:+ id +:+ ".").
  { rewrite Hstrip. apply list_ascii_inj.
    rewrite list_ascii_of_string_of_list_ascii, !list_of_append, Hd1,
      <- !app_assoc. reflexivity. }
  split; [exact Hbase|].
  intros ph [->|(p & c & Hp & Hc)].
  - rewrite append_nil_r, Hbase. simpl. apply list_ascii_inj.
    rewrite !list_of_append. simpl. by rewrite ?app_nil_r.
  - rewrite (Hphrase ph p c Hp Hc), Hbase.
    assert (Hne : String.eqb ph "" = false).
    { destruct ph; [by destruct p|reflexivity]. }
    rewrite Hne. apply list_ascii_inj.
    rewrite !list_of_append, <- !app_assoc. reflexivity.
Qed.

Arguments int_dict_get : simpl never.

(** The description of a record that has its id. *)
Lemma sentence_of_record (compound : PyDict) (chembl_id : PyVal) :
  compound !! "molecule_chembl_id" = Some chembl_id ->
  create_compound_description compound = Ok (sentence compound chembl_id).
Proof.
  intros Hid.
  unfold create_compound_description, sentence, named_part, phase_part,
    dict_item_pure, dict_get, dict_get_default.
  rewrite Hid.
  set (kind := py_str (default (PyStr "compound") (compound !! "molecule_type"))).
  assert (Hplain : list_ascii_of_string ("This is a " +:+ kind +:+ " ") =
            (list_ascii_of_string "This is a "
             ++ list_ascii_of_string kind ++ list_ascii_of_string " ")%list)
    by (by rewrite !list_of_append).
  assert (Hnamed : forall name,
            list_ascii_of_string
              (("This is a " +:+ kind +:+ " ") +:+ "named " +:+ name +:+ " ") =
            (list_ascii_of_string "This is a "
             ++ list_ascii_of_string kind ++ list_ascii_of_string " "
             ++ list_ascii_of_string "named " ++ list_ascii_of_string name
             ++ list_ascii_of_string " ")%list)
    by (intros; by rewrite !list_of_append, <- !app_assoc).
  destruct (compound !! "pref_name") as [name|]; simpl;
    [destruct (truthy name)|]; simpl;
    (destruct (compound !! "max_phase") as [phase|]; simpl;
     [destruct (truthy phase)|]; simpl); f_equal;
    first
      [ rewrite (proj2 (strip_description _ _ (py_str chembl_id) (Hnamed _)) _
                   (phase_phrase_end _))
      | rewrite (proj2 (strip_description _ _ (py_str chembl_id) Hplain) _
                   (phase_phrase_end _))
      | rewrite (proj1 (strip_description _ _ (py_str chembl_id) (Hnamed _)))
      | rewrite (proj1 (strip_description _ _ (py_str chembl_id) Hplain)) ];
    apply list_ascii_inj; rewrite !list_of_append, <- ?app_assoc; simpl;
    rewrite ?app_nil_r; reflexivity.
Qed.

(** X1: The description of a record that has its [molecule_chembl_id] is
    the sentence "This is a <type> [named <name> ]with ChEMBL ID <id>.",
    followed by a blank and the phrase when [max_phase] selects one: the
    final [strip()] removes the blank after the full stop when no phrase
    follows, and nothing else. *)
Theorem description_is_sentence (compound : PyDict) (chembl_id : PyVal) :
  compound !! "molecule_chembl_id" = Some chembl_id ->
  create_compound_description compound = Ok (sentence compound chembl_id).
Proof. apply sentence_of_record. Qed.

(** X2: [create_compound_description] raises [KeyError] for
    [molecule_chembl_id] exactly when the record has no such key; every
    other key may be missing. *)
Theorem description_key_error (compound : PyDict) :
  match compound !! "molecule_chembl_id" with
  | Some _ => exists description,
      create_compound_description compound = Ok description
  | None =>
      create_compound_description compound =
        Raise (KeyError "molecule_chembl_id")
  end.
Proof.
  destruct (compound !! "molecule_chembl_id") as [id|] eqn:Hid.
  - eexists. by apply sentence_of_record.
  - unfold create_compound_description, dict_item_pure, dict_get.
    rewrite Hid.
    destruct (compound !! "pref_name") as [name|]; simpl;
      [destruct (truthy name)|]; reflexivity.
Qed.

(** X3: For an [int] phase from 1 to 4 the description is the one of the
    record without [max_phase], a blank, and the phrase of the table. *)
Theorem description_appends_phase (compound : PyDict) (z : Z) (base : string) :
  1 <= z <= 4 ->
  compound !! "max_phase" = Some (PyInt z) ->
  create_compound_description (delete "max_phase" compound) = Ok base ->
  create_compound_description compound =
    Ok (base +:+ " " +:+ int_dict_get phase_desc (PyInt z) "").
Proof.
  intros Hz Hphase Hbase.
  rewrite (description_with_int_phase compound z base Hphase Hbase).
  replace (Z.leb 1 z && Z.leb z 4) with true; [reflexivity|].
  symmetry. apply andb_true_iff. split; apply Z.leb_le; lia.
Qed.

(** X4: A [max_phase] that is not a number ([None], or a text such as
    "4.0") selects no phrase: the description is the one of the record
    without [max_phase]. *)
Theorem description_ignores_non_numeric_phase (compound : PyDict) (v : PyVal) :
  compound !! "max_phase" = Some v ->
  py_num v = None ->
  create_compound_description compound =
  create_compound_description (delete "max_phase" compound).
Proof.
  intros Hphase Hnum.
  destruct (compound !! "molecule_chembl_id") as [id|] eqn:Hid.
  - rewrite (sentence_of_record compound id Hid).
    rewrite (sentence_of_record (delete "max_phase" compound) id)
      by (by rewrite lookup_delete_ne).
    f_equal. unfold sentence, named_part, phase_part, dict_get,
      dict_get_default.
    rewrite lookup_delete_eq, !lookup_delete_ne, Hphase by done. simpl.
    assert (Hnone : int_dict_get phase_desc v "" = "").
    { destruct v; try discriminate; reflexivity. }
    rewrite Hnone. by destruct (truthy v).
  - unfold create_compound_description, dict_item_pure, dict_get.
    rewrite !lookup_delete_ne, Hid by done.
    destruct (compound !! "pref_name") as [name|]; simpl;
      [destruct (truthy name)|]; reflexivity.
Qed.

End DescriptionShape.

(** ** Processing a batch *)

Section BatchFacts.
Context `{FloatRepr}.
Variable lib : Collaborators.

Lemma embeddable_prepared (compound : PyDict) :
  embeddable lib compound ->
  exists properties embedding chembl_id description,
    compound !! "molecule_chembl_id" = Some chembl_id
    /\ create_compound_description compound = Ok description
    /\ data_object compound description = Ok properties
    /\ prepared lib compound =
         Ok (properties, embedding, generate_uuid5 lib chembl_id).
Proof.
  intros (d & v & Hd & Hv).
  destruct (description_needs_id _ _ Hd) as [id Hid].
  unfold prepared, data_object, dict_item_pure.
  rewrite Hd, Hid; simpl. rewrite Hv; simpl.
  eexists _, v, id, d. repeat split; reflexivity.
Qed.

(** One record whose description and embedding are computed: the object
    is written under its uuid, or the exception of [batch.add_object] is
    logged; in both cases the loop goes on. *)
Lemma process_compound_prepared (compound : PyDict) w properties embedding uuid :
  prepared lib compound = Ok (properties, embedding, uuid) ->
  process_compound lib compound w =
    (Ok tt,
     match add_object_fault lib (w_objects w) properties embedding uuid with
     | Some e => add_log (error_entry compound e) w
     | None =>
         set_objects
           (<[ uuid := {| io_properties := properties;
                          io_vector := embedding |} ]> (w_objects w)) w
     end).
Proof.
  unfold prepared. intros Hp.
  apply rbind_Ok_inv in Hp as (d & Hd & Hp).
  apply rbind_Ok_inv in Hp as (v & Hv & Hp).
  apply rbind_Ok_inv in Hp as (p & Hdo & Hp).
  apply rbind_Ok_inv in Hp as (id & Hid & Hp).
  injection Hp as -> -> <-.
  unfold process_compound, bind, lift, try_except, add_object, logger, modify.
  rewrite Hd, Hv, Hdo, Hid.
  destruct (add_object_fault lib (w_objects w) properties embedding
              (generate_uuid5 lib id)) as [e|]; [|reflexivity].
  unfold error_entry, dict_get. unfold dict_item_pure in Hid.
  destruct (compound !! "molecule_chembl_id"); [|discriminate].
  injection Hid as ->. reflexivity.
Qed.

Lemma process_compound_embeddable (compound : PyDict) w :
  embeddable lib compound ->
  exists w', process_compound lib compound w = (Ok tt, w').
Proof.
  intros He. destruct (embeddable_prepared _ He) as (p & v & id & d & _ & _ & _ & Hp).
  rewrite (process_compound_prepared _ w _ _ _ Hp). eauto.
Qed.

Lemma process_batch_embeddable (compounds : list PyDict) w :
  Forall (embeddable lib) compounds ->
  exists w', process_batch lib compounds w = (Ok tt, w').
Proof.
  intros Hall. revert w.
  induction Hall as [|c l Hc _ IH]; intros w; simpl.
  - eexists; reflexivity.
  - destruct (process_compound_embeddable c w Hc) as [w1 H1].
    unfold process_batch in *; simpl. rewrite (bind_Ok _ _ _ _ _ H1). apply IH.
Qed.

(** C1, as the code has it: in a batch whose descriptions and embeddings
    are all computed, a record whose write raises is logged and skipped,
    the records after it are processed from the state it leaves, and
    [process_batch] completes without an exception. *)
Theorem process_batch_skips_write_failure
  (before after : list PyDict) (compound : PyDict) (w : World) :
  Forall (embeddable lib) (before ++ compound :: after) ->
  exists w1 w2 w3 properties embedding uuid,
    process_batch lib before w = (Ok tt, w1)
    /\ prepared lib compound = Ok (properties, embedding, uuid)
    /\ process_compound lib compound w1 = (Ok tt, w2)
    /\ process_batch lib after w2 = (Ok tt, w3)
    /\ process_batch lib (before ++ compound :: after) w = (Ok tt, w3)
    /\ (forall e,
          add_object_fault lib (w_objects w1) properties embedding uuid = Some e ->
          w2 = add_log (error_entry compound e) w1)
    /\ (add_object_fault lib (w_objects w1) properties embedding uuid = None ->
        w2 = set_objects
               (<[ uuid := {| io_properties := properties;
                              io_vector := embedding |} ]> (w_objects w1)) w1).
Proof.
  intros Hall. apply Forall_app in Hall as [Hb Hrest].
  apply Forall_cons_iff in Hrest as [Hc Ha].
  destruct (process_batch_embeddable before w Hb) as [w1 H1].
  destruct (embeddable_prepared _ Hc) as (p & v & id & d & _ & _ & _ & Hp).
  pose proof (process_compound_prepared compound w1 _ _ _ Hp) as H2.
  destruct (process_batch_embeddable after
              (match add_object_fault lib (w_objects w1) p v
                       (generate_uuid5 lib id) with
               | Some e => add_log (error_entry compound e) w1
               | None =>
                   set_objects
                     (<[ generate_uuid5 lib id :=
                           {| io_properties := p; io_vector := v |} ]>
                        (w_objects w1)) w1
               end) Ha) as [w3 H3].
  eexists w1, _, w3, p, v, _.
  split; [exact H1|]. split; [exact Hp|]. split; [exact H2|].
  split; [exact H3|]. split; [|split].
  - unfold process_batch in *. rewrite for_each_app, H1. simpl.
    rewrite (bind_Ok _ _ _ _ _ H2). exact H3.
  - intros e ->. reflexivity.
  - intros ->. reflexivity.
Qed.

End BatchFacts.

Section StoreFacts.
Context `{FloatRepr}.
Variable lib : Collaborators.

Lemma data_object_spec (compound : PyDict) description properties :
  data_object compound description = Ok properties ->
  dom properties = seven_properties
  /\ properties !! "molecule_chembl_id" = compound !! "molecule_chembl_id"
  /\ properties !! "description" = Some (PyStr description)
  /\ Forall (fun kd : string * PyVal =>
               properties !! kd.1 = Some (default kd.2 (compound !! kd.1)))
       optional_defaults.
Proof.
  unfold data_object, dict_item_pure, dict_get_default.
  destruct (compound !! "molecule_chembl_id") as [id|] eqn:Hid; simpl;
    [|discriminate].
  intros [= <-]. split; [|split; [|split]].
  - rewrite !dom_insert_L, dom_empty_L. unfold seven_properties. set_solver.
  - by simplify_map_eq.
  - by simplify_map_eq.
  - unfold optional_defaults. repeat constructor; simpl; by simplify_map_eq.
Qed.

(** What one turn of the loop does to the collection: nothing, or one
    write of the data object of the record under the uuid of its id. *)
Lemma process_compound_objects (compound : PyDict) w r w1 :
  process_compound lib compound w = (r, w1) ->
  w_objects w1 = w_objects w
  \/ exists description properties embedding chembl_id,
       create_compound_description compound = Ok description
       /\ data_object compound description = Ok properties
       /\ compound !! "molecule_chembl_id" = Some chembl_id
       /\ w_objects w1 =
            <[ generate_uuid5 lib chembl_id :=
                 {| io_properties := properties; io_vector := embedding |} ]>
              (w_objects w).
Proof.
  unfold process_compound, bind, lift, try_except, add_object, logger, modify.
  destruct (create_compound_description compound) as [d|e] eqn:Hd;
    [|intros [= _ <-]; by left].
  destruct (encode lib d) as [v|e]; [|intros [= _ <-]; by left].
  destruct (data_object compound d) as [p|e] eqn:Hp; [|intros [= _ <-]; by left].
  unfold dict_item_pure.
  destruct (compound !! "molecule_chembl_id") as [id|] eqn:Hid; simpl.
  - destruct (add_object_fault lib (w_objects w) p v (generate_uuid5 lib id));
      intros [= _ <-]; [by left|].
    right. exists d, p, v, id. by simpl.
  - intros [= _ <-]. by left.
Qed.

Lemma process_batch_objects (compounds : list PyDict) w r w' uuid o :
  process_batch lib compounds w = (r, w') ->
  w_objects w' !! uuid = Some o ->
  w_objects w !! uuid = Some o
  \/ exists compound description chembl_id,
       In compound compounds
       /\ create_compound_description compound = Ok description
       /\ data_object compound description = Ok (io_properties o)
       /\ compound !! "molecule_chembl_id" = Some chembl_id
       /\ uuid = generate_uuid5 lib chembl_id.
Proof.
  unfold process_batch. revert w.
  induction compounds as [|c l IH]; intros w; simpl.
  - intros [= _ <-]. by left.
  - unfold bind at 1.
    destruct (process_compound lib c w) as [[[]|e] w1] eqn:Hc.
    + intros Hl Ho. destruct (IH w1 Hl Ho) as [Hold|Hnew].
      * apply process_compound_objects in Hc
          as [Heq|(d & p & v & id & Hd & Hp & Hid & Heq)].
        { left. by rewrite <- Heq. }
        rewrite Heq in Hold.
        destruct (decide (generate_uuid5 lib id = uuid)) as [<-|Hne].
        { rewrite lookup_insert_eq in Hold. injection Hold as <-.
          right. exists c, d, id. simpl. auto. }
        rewrite lookup_insert_ne in Hold by done. by left.
      * destruct Hnew as (c' & d & id & Hin & Hrest).
        right. exists c', d, id. split; [by right | exact Hrest].
    + intros [= _ <-] Ho.
      apply process_compound_objects in Hc
        as [Heq|(d & p & v & id & Hd & Hp & Hid & Heq)].
      { left. by rewrite <- Heq. }
      rewrite Heq in Ho.
      destruct (decide (generate_uuid5 lib id = uuid)) as [<-|Hne].
      { rewrite lookup_insert_eq in Ho. injection Ho as <-.
        right. exists c, d, id. simpl. auto. }
      rewrite lookup_insert_ne in Ho by done. by left.
Qed.

(** C10, as the code has it: an object written by [process_batch] has
    exactly the seven properties of the schema; [molecule_chembl_id] and
    [description] are the record's id and its description, and each optional
    property is the record's own value when the record has the key (whatever
    that value is) and the default of [data_object] when it has not. *)
Theorem upserted_object_properties
  (compounds : list PyDict) (w w' : World) (r : result unit)
  (uuid : string) (o : IndexedObject) :
  process_batch lib compounds w = (r, w') ->
  w_objects w' !! uuid = Some o ->
  w_objects w !! uuid <> Some o ->
  exists compound description,
    In compound compounds
    /\ create_compound_description compound = Ok description
    /\ dom (io_properties o) = seven_properties
    /\ io_properties o !! "molecule_chembl_id" = compound !! "molecule_chembl_id"
    /\ io_properties o !! "description" = Some (PyStr description)
    /\ Forall (fun kd : string * PyVal =>
                 io_properties o !! kd.1 = Some (default kd.2 (compound !! kd.1)))
         optional_defaults.
Proof.
  intros Hrun Ho Hnew.
  destruct (process_batch_objects _ _ _ _ _ _ Hrun Ho)
    as [Hold|(c & d & id & Hin & Hd & Hp & _)]; [done|].
  exists c, d. split; [done|]. split; [done|].
  by apply data_object_spec.
Qed.

Lemma process_batch_keyed (compounds : list PyDict) w r w' :
  keyed_by_uuid5 lib (w_objects w) ->
  process_batch lib compounds w = (r, w') ->
  keyed_by_uuid5 lib (w_objects w').
Proof.
  intros Hk Hrun uuid o Ho.
  destruct (process_batch_objects _ _ _ _ _ _ Hrun Ho)
    as [Hold|(c & d & id & _ & _ & Hp & Hid & ->)]; [by eapply Hk|].
  exists id. split; [|done].
  apply data_object_spec in Hp as (_ & -> & _). done.
Qed.

(** C9: the uuid of an object is a function of its [molecule_chembl_id]
    alone, so in a collection filled by the importer a record that is
    imported twice, both writes being accepted, is stored once: the second
    import writes over the object of the first and leaves the collection as
    the first import left it. *)
Theorem reimport_overwrites
  (compound : PyDict) (chembl_id : PyVal) (w w1 w2 : World) :
  keyed_by_uuid5 lib (w_objects w) ->
  compound !! "molecule_chembl_id" = Some chembl_id ->
  process_batch lib [compound] w = (Ok tt, w1) ->
  process_batch lib [compound] w1 = (Ok tt, w2) ->
  w_log w2 = w_log w ->
  exactly_one_object (w_objects w2) chembl_id
  /\ w_objects w2 = w_objects w1
  /\ is_Some (w_objects w2 !! generate_uuid5 lib chembl_id).
Proof.
  intros Hk Hid Hrun1 Hrun2 Hlog.
  pose proof (process_batch_keyed _ _ _ _ Hk Hrun1) as Hk1.
  pose proof (process_batch_keyed _ _ _ _ Hk1 Hrun2) as Hk2.
  assert (Hone : forall u u1, process_batch lib [compound] u = (Ok tt, u1) ->
            process_compound lib compound u = (Ok tt, u1)).
  { intros u u1. unfold process_batch; simpl. unfold bind, ret.
    destruct (process_compound lib compound u) as [[[]|e] u'];
      [by intros [= ->] | discriminate]. }
  apply Hone in Hrun1, Hrun2. clear Hone.
  assert (He : embeddable lib compound).
  { revert Hrun1. unfold process_compound, bind, lift.
    destruct (create_compound_description compound) as [d|e] eqn:Hd;
      [|discriminate].
    destruct (encode lib d) as [v|e] eqn:Hv; [|discriminate].
    intros _. by exists d, v. }
  destruct (embeddable_prepared lib _ He)
    as (p & v & id & d & Hid' & _ & Hp & Hprep).
  rewrite Hid in Hid'. injection Hid' as <-.
  rewrite (process_compound_prepared lib _ w _ _ _ Hprep) in Hrun1.
  rewrite (process_compound_prepared lib _ w1 _ _ _ Hprep) in Hrun2.
  injection Hrun1 as Hw1. injection Hrun2 as Hw2.
  destruct (add_object_fault lib (w_objects w) p v
              (generate_uuid5 lib chembl_id)) as [e1|].
  { exfalso. apply (f_equal (fun l => length l)) in Hlog. subst w1 w2.
    destruct (add_object_fault lib _ p v _); simpl in Hlog;
      rewrite ?length_app in Hlog; simpl in Hlog; lia. }
  destruct (add_object_fault lib (w_objects w1) p v
              (generate_uuid5 lib chembl_id)) as [e2|].
  { exfalso. apply (f_equal (fun l => length l)) in Hlog. subst w1 w2.
    simpl in Hlog. rewrite length_app in Hlog. simpl in Hlog. lia. }
  assert (Hsame : w_objects w2 = w_objects w1).
  { subst w2 w1. simpl. by rewrite insert_insert_eq. }
  assert (Hat : w_objects w2 !! generate_uuid5 lib chembl_id =
                Some {| io_properties := p; io_vector := v |}).
  { rewrite <- Hw2. simpl. apply lookup_insert_eq. }
  split; [|split; [done | by eexists]].
  exists (generate_uuid5 lib chembl_id), {| io_properties := p; io_vector := v |}.
  split; [done|]. split.
  - simpl. apply data_object_spec in Hp as (_ & -> & _). done.
  - intros uuid' o' Ho' Hid'.
    destruct (Hk2 _ _ Ho') as (id' & Hid'' & ->). congruence.
Qed.

End StoreFacts.

(** ** A whole import *)

Section ImportFacts.
Context `{FloatRepr}.
Variable lib : Collaborators.
Variable batch_size : Z.

Lemma try_except_Ok_inv {S A} (m : M S A) (h : exn -> M S A) s a s' :
  try_except m h s = (Ok a, s') ->
  m s = (Ok a, s')
  \/ exists e s1, m s = (Raise e, s1) /\ h e s1 = (Ok a, s').
Proof.
  unfold try_except. destruct (m s) as [[a'|e] s1]; intros Hh.
  - by left.
  - right. eauto.
Qed.

Lemma fetch_chembl_data_Ok (limit : Z) w compounds w' :
  fetch_chembl_data lib limit w = (Ok compounds, w') ->
  fetch_molecules lib limit = Ok compounds.
Proof.
  unfold fetch_chembl_data, try_except, bind, lift, logger, modify, ret, raise.
  destruct (fetch_molecules lib limit) as [cs|e]; [|discriminate].
  by intros [= -> _].
Qed.

(** C2, as the code has it: a call of [import_data] that completes
    evaluates to [None]; the count it reports is the one in its last log
    line, which is the number of records fetched. *)
Theorem import_data_returns_none (limit : Z) (w w' : World) (v : PyVal) :
  import_data lib batch_size limit w = (Ok v, w') ->
  v = PyNone
  /\ exists compounds w1,
       fetch_molecules lib limit = Ok compounds
       /\ w' = add_log (success_entry compounds) w1.
Proof.
  unfold import_data. intros Hrun.
  apply try_except_Ok_inv in Hrun as [Hrun|(e & s1 & _ & Hh)].
  - apply bind_Ok_inv in Hrun as ([] & s1 & _ & Hrun).
    apply bind_Ok_inv in Hrun as (compounds & s2 & Hf & Hrun).
    apply bind_Ok_inv in Hrun as (starts & s3 & _ & Hrun).
    apply bind_Ok_inv in Hrun as ([] & s4 & _ & Hrun).
    apply bind_Ok_inv in Hrun as ([] & s5 & Hlog & Hrun).
    unfold ret in Hrun. injection Hrun as <- <-.
    split; [done|]. exists compounds, s4.
    split; [by eapply fetch_chembl_data_Ok|].
    unfold logger, modify in Hlog. by injection Hlog as <-.
  - unfold bind, logger, modify, raise in Hh. discriminate.
Qed.

End ImportFacts.

(** ** More on batches *)

Section BatchExtras.
Context `{FloatRepr}.
Variable lib : Collaborators.

Lemma process_compound_raises (compound : PyDict) (e : exn) w :
  unembeddable lib compound e ->
  process_compound lib compound w = (Raise e, w).
Proof.
  unfold process_compound, bind, lift.
  intros [Hd|(d & Hd & Hv)]; rewrite Hd; [reflexivity|].
  by rewrite Hv.
Qed.

(** One turn of the loop leaves the schema flag alone, keeps every uuid
    of the collection, and logs at most error lines. *)
Lemma process_compound_grows (compound : PyDict) w r w1 :
  process_compound lib compound w = (r, w1) ->
  w_schema w1 = w_schema w
  /\ dom (w_objects w) ⊆ dom (w_objects w1)
  /\ exists new,
       w_log w1 = (w_log w ++ new)%list
       /\ Forall (fun entry => log_level entry = ERROR) new.
Proof.
  assert (Hsame : w_schema w = w_schema w
            /\ dom (w_objects w) ⊆ dom (w_objects w)
            /\ exists new, w_log w = (w_log w ++ new)%list
                 /\ Forall (fun entry => log_level entry = ERROR) new).
  { split; [done|]. split; [done|]. exists []. by rewrite app_nil_r. }
  unfold process_compound, bind, lift, try_except, add_object, logger, modify.
  destruct (create_compound_description compound) as [d|e];
    [|by intros [= _ <-]].
  destruct (encode lib d) as [v|e]; [|by intros [= _ <-]].
  destruct (data_object compound d) as [p|e]; [|by intros [= _ <-]].
  destruct (dict_item_pure compound "molecule_chembl_id") as [id|e];
    [|by intros [= _ <-]].
  destruct (add_object_fault lib (w_objects w) p v (generate_uuid5 lib id));
    intros [= _ <-]; simpl.
  - split; [done|]. split; [done|]. eexists [_]. split; [done|].
    by repeat constructor.
  - split; [done|]. split; [apply dom_insert_subseteq|].
    exists []. by rewrite app_nil_r.
Qed.

Lemma process_batch_grows (compounds : list PyDict) w r w' :
  process_batch lib compounds w = (r, w') ->
  w_schema w' = w_schema w
  /\ dom (w_objects w) ⊆ dom (w_objects w')
  /\ exists new,
       w_log w' = (w_log w ++ new)%list
       /\ Forall (fun entry => log_level entry = ERROR) new.
Proof.
  unfold process_batch. revert w.
  induction compounds as [|c l IH]; intros w; simpl.
  - intros [= _ <-]. split; [done|]. split; [done|].
    exists []. by rewrite app_nil_r.
  - unfold bind at 1.
    destruct (process_compound lib c w) as [[[]|e] w1] eqn:Hc.
    + intros Hl.
      destruct (process_compound_grows _ _ _ _ Hc) as (Hs & Hd & n1 & Hl1 & Hn1).
      destruct (IH _ Hl) as (Hs' & Hd' & n2 & Hl2 & Hn2).
      split; [congruence|]. split; [set_solver|].
      exists (n1 ++ n2)%list. split; [|by apply Forall_app].
      by rewrite Hl2, Hl1, app_assoc.
    + intros [= _ <-]. by eapply process_compound_grows.
Qed.

(** X5: A record whose description or embedding raises ends the batch: the
    records before it have been processed, the exception leaves
    [process_batch], and the records after it are not looked at. *)
Theorem process_batch_aborts
  (before after : list PyDict) (compound : PyDict) (e : exn) (w : World) :
  Forall (embeddable lib) before ->
  unembeddable lib compound e ->
  exists w1,
    process_batch lib before w = (Ok tt, w1)
    /\ process_batch lib (before ++ compound :: after) w = (Raise e, w1).
Proof.
  intros Hb Hc.
  destruct (process_batch_embeddable lib before w Hb) as [w1 H1].
  exists w1. split; [exact H1|].
  unfold process_batch in *. rewrite for_each_app, H1. simpl.
  by rewrite (bind_Raise _ _ _ _ _ (process_compound_raises compound e w1 Hc)).
Qed.

(** X6: [process_batch] never removes an object from the collection and
    never touches the schema flag; what it adds to the log are error
    lines, after the lines that were there. *)
Theorem process_batch_only_adds
  (compounds : list PyDict) (w w' : World) (r : result unit) :
  process_batch lib compounds w = (r, w') ->
  w_schema w' = w_schema w
  /\ dom (w_objects w) ⊆ dom (w_objects w')
  /\ exists new,
       w_log w' = (w_log w ++ new)%list
       /\ Forall (fun entry => log_level entry = ERROR) new.
Proof. apply process_batch_grows. Qed.

End BatchExtras.

(** ** More on a whole import *)

Section ImportExtras.
Context `{FloatRepr}.
Variable lib : Collaborators.

(** [import_data], stage by stage. *)
Lemma import_data_run (batch_size limit : Z) (w : World) :
  import_data lib batch_size limit w =
  match ensure_collection lib w with
  | (Raise e, w1) => import_failed e w1
  | (Ok _, w1) =>
      match fetch_molecules lib limit with
      | Raise e => import_failed e (add_log (fetch_error_entry e) w1)
      | Ok compounds =>
          let w2 := add_log (fetched_entry compounds) w1 in
          match py_range 0 (Z.of_nat (length compounds)) batch_size with
          | Raise e => import_failed e w2
          | Ok starts =>
              match for_each starts
                      (fun i =>
                         process_batch lib
                           (py_slice compounds (Some i) (Some (i + batch_size))))
                      w2 with
              | (Raise e, w3) => import_failed e w3
              | (Ok _, w3) => (Ok PyNone, add_log (success_entry compounds) w3)
              end
          end
      end
  end.
Proof.
  unfold import_data, import_failed, fetch_chembl_data.
  fold (ensure_collection lib).
  unfold try_except at 1. unfold bind at 1.
  destruct (ensure_collection lib w) as [[[]|e] w1]; [|reflexivity].
  unfold bind at 1. unfold try_except, bind, lift, logger, modify, ret, raise.
  destruct (fetch_molecules lib limit) as [compounds|e]; [|reflexivity].
  simpl.
  destruct (py_range 0 (Z.of_nat (length compounds)) batch_size)
    as [starts|e]; [|reflexivity].
  destruct (for_each starts _ _) as [[[]|e] w3]; reflexivity.
Qed.

(** The first statement of [import_data] never touches the objects. *)
Lemma ensure_collection_cases (w : World) :
  (w_schema w = true /\ ensure_collection lib w = (Ok tt, w))
  \/ (w_schema w = false /\ create_fault lib = None
      /\ ensure_collection lib w =
           (Ok tt,
            add_log {| log_level := INFO;
                       log_msg := "Schema created successfully" |}
              (set_schema true w)))
  \/ (w_schema w = false
      /\ exists e,
           create_fault lib = Some e
           /\ ensure_collection lib w =
                (Raise e,
                 add_log {| log_level := ERROR;
                            log_msg := "Error creating schema: " +:+ exn_str e |}
                   w)).
Proof.
  unfold ensure_collection, try_except, collections_get, create_schema,
    bind, get, ret, raise, logger, modify.
  destruct (w_schema w) eqn:Hs; [by left|right].
  destruct (create_fault lib) as [e|]; simpl.
  - right. split; [done|]. by exists e.
  - left. by repeat split.
Qed.

(** *** The loop over the batches *)

Lemma py_slice_chunk {A} (l : list A) (i bs : Z) :
  0 <= i -> 0 < bs ->
  py_slice l (Some i) (Some (i + bs)) =
  take (Z.to_nat bs) (drop (Z.to_nat i) l).
Proof.
  intros Hi Hbs. unfold py_slice, slice_index. simpl.
  destruct (Z.ltb_spec i 0); [lia|].
  destruct (Z.ltb_spec (i + bs) 0); [lia|].
  destruct (Z_le_gt_dec i (Z.of_nat (length l))) as [Hle|Hgt].
  - rewrite (Z.min_r _ i) by lia.
    destruct (Z_le_gt_dec (i + bs) (Z.of_nat (length l))) as [Hle'|Hgt'].
    + rewrite Z.min_r by lia. f_equal. lia.
    + rewrite Z.min_l by lia.
      rewrite !take_ge; [done| |]; rewrite length_drop; lia.
  - rewrite !Z.min_l by lia. rewrite Z.sub_diag.
    rewrite (drop_ge l (Z.to_nat i)) by lia. rewrite take_nil.
    reflexivity.
Qed.

Lemma loop_chunks (bsn : nat) (full : list PyDict) :
  (0 < bsn)%nat ->
  forall (k j0 : nat) (w : World),
    for_each ((fun j : nat => Z.of_nat j * Z.of_nat bsn) <$> seq j0 k)
      (fun i =>
         process_batch lib
           (py_slice full (Some i) (Some (i + Z.of_nat bsn)))) w =
    process_batch lib (take (k * bsn) (drop (j0 * bsn) full)) w.
Proof.
  intros Hbs. induction k as [|k IH]; intros j0 w.
  - reflexivity.
  - simpl seq. rewrite fmap_cons. simpl for_each.
    rewrite py_slice_chunk by lia.
    replace (Z.to_nat (Z.of_nat j0 * Z.of_nat bsn)) with (j0 * bsn)%nat by lia.
    rewrite Nat2Z.id.
    replace (S k * bsn)%nat with (bsn + k * bsn)%nat by lia.
    rewrite <- take_take_drop, drop_drop.
    replace (j0 * bsn + bsn)%nat with (S j0 * bsn)%nat by lia.
    unfold process_batch at 3. rewrite for_each_app.
    fold (process_batch lib (take bsn (drop (j0 * bsn) full))).
    unfold bind.
    destruct (process_batch lib (take bsn (drop (j0 * bsn) full)) w)
      as [[[]|e] w1]; [apply IH | reflexivity].
Qed.

(** With a positive batch size, the loop of [import_data] over the
    batches does what [process_batch] does on all the records. *)
Lemma import_loop (bs : Z) (compounds : list PyDict) :
  0 < bs ->
  exists starts,
    py_range 0 (Z.of_nat (length compounds)) bs = Ok starts
    /\ forall w,
         for_each starts
           (fun i =>
              process_batch lib (py_slice compounds (Some i) (Some (i + bs)))) w
         = process_batch lib compounds w.
Proof.
  intros Hbs.
  assert (exists bsn, bs = Z.of_nat bsn /\ (0 < bsn)%nat) as (bsn & -> & Hpos).
  { exists (Z.to_nat bs). lia. }
  unfold py_range.
  destruct (Z.eqb_spec (Z.of_nat bsn) 0); [lia|].
  destruct (Z.ltb_spec 0 (Z.of_nat bsn)); [|lia].
  eexists. split; [reflexivity|]. intros w.
  set (total := Z.of_nat (length compounds)).
  set (count := (total - 0 + Z.of_nat bsn - 1) / Z.of_nat bsn).
  assert (Hcount : 0 <= count /\ total <= count * Z.of_nat bsn).
  { unfold count.
    pose proof (Z.div_mod (total - 0 + Z.of_nat bsn - 1) (Z.of_nat bsn)) as Hdm.
    pose proof (Z.mod_pos_bound (total - 0 + Z.of_nat bsn - 1) (Z.of_nat bsn)) as Hm.
    split; [apply Z.div_pos; lia | nia]. }
  unfold seqZ. rewrite <- list_fmap_compose.
  erewrite (list_fmap_ext _ (fun j : nat => Z.of_nat j * Z.of_nat bsn));
    [|intros j; simpl; lia].
  rewrite (loop_chunks bsn compounds Hpos (Z.to_nat count) 0 w).
  simpl drop. rewrite take_ge; [reflexivity|].
  destruct Hcount as [Hc0 Hc]. unfold total in Hc. clearbody count.
  assert (Z.of_nat (Z.to_nat count * bsn) = count * Z.of_nat bsn)
    by (rewrite Nat2Z.inj_mul, Z2Nat.id; lia).
  rewrite drop_0. lia.
Qed.

(** The loop over the batches keeps what [process_batch] keeps. *)
Lemma loop_grows (bs : Z) (compounds : list PyDict) (starts : list Z) w r w' :
  for_each starts
    (fun i => process_batch lib (py_slice compounds (Some i) (Some (i + bs)))) w
  = (r, w') ->
  w_schema w' = w_schema w
  /\ dom (w_objects w) ⊆ dom (w_objects w')
  /\ (keyed_by_uuid5 lib (w_objects w) -> keyed_by_uuid5 lib (w_objects w')).
Proof.
  revert w. induction starts as [|i starts IH]; intros w; simpl.
  - by intros [= _ <-].
  - unfold bind.
    destruct (process_batch lib _ w) as [[[]|e] w1] eqn:Hb.
    + intros Hl.
      destruct (process_batch_grows lib _ _ _ _ Hb) as (Hs & Hd & _).
      destruct (IH _ Hl) as (Hs' & Hd' & Hk').
      split; [congruence|]. split; [set_solver|].
      intros Hk. apply Hk'. by eapply process_batch_keyed.
    + intros [= _ <-].
      destruct (process_batch_grows lib _ _ _ _ Hb) as (Hs & Hd & _).
      split; [done|]. split; [done|].
      intros Hk. by eapply process_batch_keyed.
Qed.

Lemma ensure_collection_keeps (w : World) r w1 :
  ensure_collection lib w = (r, w1) ->
  w_objects w1 = w_objects w
  /\ (r = Ok tt -> w_schema w1 = true).
Proof.
  intros Hrun.
  destruct (ensure_collection_cases w)
    as [[Hs He]|[(Hs & Hc & He)|(Hs & e & Hc & He)]];
    rewrite He in Hrun; injection Hrun as <- <-; by split.
Qed.

(** X8: The result of [import_data] does not depend on the batch size, as
    long as it is positive: the batches only cut the list of records. *)
Theorem import_data_batch_size_irrelevant (bs1 bs2 limit : Z) (w : World) :
  0 < bs1 -> 0 < bs2 ->
  import_data lib bs1 limit w = import_data lib bs2 limit w.
Proof.
  intros H1 H2. rewrite !import_data_run.
  destruct (ensure_collection lib w) as [[[]|e] w1]; [|reflexivity].
  destruct (fetch_molecules lib limit) as [compounds|e]; [|reflexivity].
  simpl.
  destruct (import_loop bs1 compounds H1) as (s1 & -> & ->).
  destruct (import_loop bs2 compounds H2) as (s2 & -> & ->).
  reflexivity.
Qed.

(** X9: With the batch size 0, an import that gets its collection and its
    records fails on [range(0, n, 0)]: it raises [ValueError] after the
    fetch, logs it, and writes nothing. *)
Theorem import_data_zero_batch_size
  (limit : Z) (w : World) (compounds : list PyDict) :
  collection_available lib w ->
  fetch_molecules lib limit = Ok compounds ->
  exists w',
    import_data lib 0 limit w =
      (Raise (ValueError "range() arg 3 must not be zero"), w')
    /\ w_objects w' = w_objects w
    /\ last (w_log w') =
         Some (import_error_entry
                 (ValueError "range() arg 3 must not be zero")).
Proof.
  intros Ha Hf. rewrite import_data_run, Hf.
  destruct (ensure_collection_cases w)
    as [[Hs He]|[(Hs & Hc & He)|(Hs & e & Hc & He)]]; rewrite He.
  - eexists. split; [reflexivity|]. split; [done|]. apply last_snoc.
  - eexists. split; [reflexivity|]. split; [done|]. apply last_snoc.
  - destruct Ha; congruence.
Qed.

(** X10: With a negative batch size, [range(0, n, batch_size)] is empty: an
    import that gets its collection and its records processes no batch,
    writes nothing, and still logs that the fetched records were imported. *)
Theorem import_data_negative_batch_size
  (bs limit : Z) (w : World) (compounds : list PyDict) :
  bs < 0 ->
  collection_available lib w ->
  fetch_molecules lib limit = Ok compounds ->
  exists w',
    import_data lib bs limit w = (Ok PyNone, w')
    /\ w_objects w' = w_objects w
    /\ last (w_log w') = Some (success_entry compounds).
Proof.
  intros Hbs Ha Hf. rewrite import_data_run, Hf.
  assert (Hr : py_range 0 (Z.of_nat (length compounds)) bs = Ok []).
  { unfold py_range.
    destruct (Z.eqb_spec bs 0); [lia|].
    destruct (Z.ltb_spec 0 bs); [lia|].
    rewrite seqZ_nil; [reflexivity|].
    assert ((0 - Z.of_nat (length compounds) - bs - 1) / - bs < 1); [|lia].
    apply Z.div_lt_upper_bound; lia. }
  destruct (ensure_collection_cases w)
    as [[Hs He]|[(Hs & Hc & He)|(Hs & e & Hc & He)]]; rewrite He.
  - simpl. rewrite Hr. simpl.
    eexists. split; [reflexivity|]. split; [done|]. apply last_snoc.
  - simpl. rewrite Hr. simpl.
    eexists. split; [reflexivity|]. split; [done|]. apply last_snoc.
  - destruct Ha; congruence.
Qed.


(** X12: When the request to ChEMBL fails, [import_data] raises its
    exception, logged once by [fetch_chembl_data] and once by
    [import_data], and no object is written. *)
Theorem import_data_fetch_failure (bs limit : Z) (w : World) (e : exn) :
  collection_available lib w ->
  fetch_molecules lib limit = Raise e ->
  exists w' before,
    import_data lib bs limit w = (Raise e, w')
    /\ w_objects w' = w_objects w
    /\ w_log w' =
         (before ++ [fetch_error_entry e; import_error_entry e])%list.
Proof.
  intros Ha Hf. rewrite import_data_run, Hf.
  destruct (ensure_collection_cases w)
    as [[Hs He]|[(Hs & Hc & He)|(Hs & e' & Hc & He)]]; rewrite He.
  - eexists _, (w_log w). split; [reflexivity|]. split; [done|].
    simpl. by rewrite <- app_assoc.
  - eexists _, (w_log w
                ++ [{| log_level := INFO;
                       log_msg := "Schema created successfully" |}])%list.
    split; [reflexivity|]. split; [done|].
    simpl. by rewrite <- (app_assoc _ [_] [_]).
  - destruct Ha; congruence.
Qed.

(** X13: Whenever [import_data] raises, the last line of the log is its own
    error line for the exception it raises. *)
Theorem import_data_logs_failure
  (bs limit : Z) (w w' : World) (e : exn) :
  import_data lib bs limit w = (Raise e, w') ->
  last (w_log w') = Some (import_error_entry e).
Proof.
  rewrite import_data_run. unfold import_failed.
  destruct (ensure_collection lib w) as [[[]|e1] w1];
    [|intros [= <- <-]; apply last_snoc].
  destruct (fetch_molecules lib limit) as [compounds|e1];
    [|intros [= <- <-]; apply last_snoc].
  simpl.
  destruct (py_range _ _ _) as [starts|e1];
    [|intros [= <- <-]; apply last_snoc].
  destruct (for_each starts _ _) as [[[]|e1] w3];
    [discriminate | intros [= <- <-]; apply last_snoc].
Qed.

(** *** What an import keeps *)

Lemma import_data_keeps (bs limit : Z) (w w' : World) (r : result PyVal) :
  import_data lib bs limit w = (r, w') ->
  dom (w_objects w) ⊆ dom (w_objects w')
  /\ (keyed_by_uuid5 lib (w_objects w) -> keyed_by_uuid5 lib (w_objects w'))
  /\ (forall v, r = Ok v -> w_schema w' = true).
Proof.
  rewrite import_data_run. unfold import_failed.
  destruct (ensure_collection lib w) as [[[]|e1] w1] eqn:He;
    destruct (ensure_collection_keeps _ _ _ He) as [Ho Hs].
  2:{ intros [= <- <-]. simpl. rewrite Ho. by repeat split. }
  destruct (fetch_molecules lib limit) as [compounds|e1].
  2:{ intros [= <- <-]. simpl. rewrite Ho. by repeat split. }
  simpl.
  destruct (py_range _ _ _) as [starts|e1].
  2:{ intros [= <- <-]. simpl. rewrite Ho. by repeat split. }
  destruct (for_each starts _ _) as [[[]|e1] w3] eqn:Hl;
    destruct (loop_grows _ _ _ _ _ _ Hl) as (Hs3 & Hd3 & Hk3);
    simpl in Hs3, Hd3, Hk3; rewrite Ho in Hd3, Hk3;
    intros [= <- <-]; simpl; (split; [done|]); (split; [done|]).
  - intros v _. rewrite Hs3. by apply Hs.
  - discriminate.
Qed.

(** X14: [import_data] never removes an object from the collection,
    whatever it returns or raises. *)
Theorem import_data_only_adds (bs limit : Z) (w w' : World) (r : result PyVal) :
  import_data lib bs limit w = (r, w') ->
  dom (w_objects w) ⊆ dom (w_objects w').
Proof. intros Hrun. by destruct (import_data_keeps _ _ _ _ _ Hrun). Qed.

(** X15: [import_data] keeps the collection keyed: if every object is stored
    under the uuid derived from its own [molecule_chembl_id] before a run,
    the same holds after it, whatever the batch size and whether or not the
    run fails half way. *)
Theorem import_data_keeps_keying
  (bs limit : Z) (w w' : World) (r : result PyVal) :
  keyed_by_uuid5 lib (w_objects w) ->
  import_data lib bs limit w = (r, w') ->
  keyed_by_uuid5 lib (w_objects w').
Proof.
  intros Hk Hrun.
  destruct (import_data_keeps _ _ _ _ _ Hrun) as (_ & Hk' & _). by apply Hk'.
Qed.


(** *** Importing again *)

Lemma process_batch_Ok_embeddable (compounds : list PyDict) w w' :
  process_batch lib compounds w = (Ok tt, w') ->
  Forall (embeddable lib) compounds.
Proof.
  unfold process_batch. revert w.
  induction compounds as [|c l IH]; intros w; simpl; [constructor|].
  unfold bind at 1.
  destruct (process_compound lib c w) as [[[]|e] w1] eqn:Hc; [|discriminate].
  intros Hl. constructor; [|by eapply IH].
  revert Hc. unfold process_compound, bind, lift.
  destruct (create_compound_description c) as [d|e] eqn:Hd; [|discriminate].
  destruct (encode lib d) as [v|e] eqn:Hv; [|discriminate].
  intros _. by exists d, v.
Qed.

Lemma process_batch_written (compounds : list PyDict) w :
  accepts_all lib ->
  Forall (embeddable lib) compounds ->
  process_batch lib compounds w =
    (Ok tt, set_objects (written lib compounds (w_objects w)) w).
Proof.
  intros Hacc Hall. revert w.
  induction Hall as [|c l Hc _ IH]; intros w.
  - by destruct w.
  - destruct (embeddable_prepared lib _ Hc) as (p & v & id & d & _ & _ & _ & Hp).
    unfold process_batch in *. simpl.
    rewrite (bind_Ok _ _ _ _ _ (process_compound_prepared lib c w _ _ _ Hp)).
    rewrite Hacc, IH. unfold written. simpl. by rewrite Hp.
Qed.




(** *** Every fetched record is stored *)

Lemma written_dom (compounds : list PyDict) (objs : Collection) :
  dom objs ⊆ dom (written lib compounds objs).
Proof.
  unfold written. revert objs.
  induction compounds as [|c l IH]; intros objs; simpl; [done|].
  destruct (prepared lib c) as [[[p v] u]|e]; [|apply IH].
  etransitivity; [apply (dom_insert_subseteq objs u)|apply IH].
Qed.

Lemma written_has (compounds : list PyDict) (objs : Collection) :
  Forall (embeddable lib) compounds ->
  Forall (fun compound =>
            exists chembl_id,
              compound !! "molecule_chembl_id" = Some chembl_id
              /\ is_Some (written lib compounds objs
                            !! generate_uuid5 lib chembl_id))
    compounds.
Proof.
  intros Hall. revert objs.
  induction Hall as [|c l Hc _ IH]; intros objs; [constructor|].
  destruct (embeddable_prepared lib _ Hc) as (p & v & id & d & Hid & _ & _ & Hp).
  assert (Hw : written lib (c :: l) objs =
               written lib l (<[ generate_uuid5 lib id :=
                                   {| io_properties := p; io_vector := v |} ]>
                                objs)).
  { unfold written. simpl. by rewrite Hp. }
  rewrite Hw. constructor; [|apply IH].
  exists id. split; [done|]. apply elem_of_dom.
  apply (written_dom l). apply elem_of_dom. rewrite lookup_insert_eq.
  by eexists.
Qed.

(** X18: After a run of [import_data] that completes, with a store that
    accepts every object and a positive batch size, every fetched record
    has an object in the collection under the uuid of its
    [molecule_chembl_id]. *)
Theorem import_data_stores_every_record
  (bs limit : Z) (w w' : World) (v : PyVal) (compounds : list PyDict) :
  accepts_all lib ->
  0 < bs ->
  fetch_molecules lib limit = Ok compounds ->
  import_data lib bs limit w = (Ok v, w') ->
  Forall (fun compound =>
            exists chembl_id,
              compound !! "molecule_chembl_id" = Some chembl_id
              /\ is_Some (w_objects w' !! generate_uuid5 lib chembl_id))
    compounds.
Proof.
  intros Hacc Hbs Hf. rewrite import_data_run, Hf. unfold import_failed.
  destruct (ensure_collection lib w) as [[[]|e1] wa]; [|discriminate].
  simpl.
  destruct (import_loop bs compounds Hbs) as (s1 & -> & ->).
  destruct (process_batch lib compounds _) as [[[]|e1] wb] eqn:Hb;
    [|discriminate].
  intros [= _ <-].
  pose proof (process_batch_Ok_embeddable _ _ _ Hb) as Hemb.
  rewrite (process_batch_written _ _ Hacc Hemb) in Hb. injection Hb as <-.
  simpl. by apply written_has.
Qed.

(** X7: Within a batch the last write wins: with a store that accepts every
    object, the object found under the uuid of the last record of a batch
    is the one prepared for that record, also when an earlier record of the
    batch has the same [molecule_chembl_id]. *)
Theorem process_batch_last_write_wins
  (before : list PyDict) (compound : PyDict) (w : World)
  (properties : PyDict) (embedding : list Q) (uuid : string) :
  accepts_all lib ->
  Forall (embeddable lib) before ->
  prepared lib compound = Ok (properties, embedding, uuid) ->
  exists w',
    process_batch lib (before ++ [compound]) w = (Ok tt, w')
    /\ w_objects w' !! uuid =
         Some {| io_properties := properties; io_vector := embedding |}.
Proof.
  intros Hacc Hb Hp.
  assert (Hc : embeddable lib compound).
  { revert Hp. unfold prepared.
    destruct (create_compound_description compound) as [d|e] eqn:Hd;
      [|discriminate].
    simpl. destruct (encode lib d) as [v|e] eqn:Hv; [|discriminate].
    intros _. by exists d, v. }
  assert (Hall : Forall (embeddable lib) (before ++ [compound]))
    by (apply Forall_app; split; [done | by constructor]).
  rewrite (process_batch_written _ w Hacc Hall).
  eexists. split; [reflexivity|]. simpl.
  unfold written. rewrite foldl_app. simpl. rewrite Hp.
  apply lookup_insert_eq.
Qed.

End ImportExtras.

(** ** The importer at concrete inputs *)

Import Examples.
#[local] Existing Instance plain_float_repr.

(** C1 fails for a failure of the embedding: [self.model.encode] is
    called outside the [try] of [process_batch]. With a model that fails on
    the description of CHEMBL99, the batch [[chembl99; aspirin]] ends with
    the exception, nothing is logged by [process_batch], and aspirin, which
    is written when processed alone, is not written; [import_data] logs the
    exception and raises it again. *)
Lemma process_batch_aborts_on_encode_failure :
  process_batch encode_fails [chembl99; aspirin] fresh =
    (Raise (ExternalError "encode failed"), fresh)
  /\ is_Some (w_objects (snd (process_batch encode_fails [aspirin] fresh))
              !! "uuid5:CHEMBL25")
  /\ fst (import_data encode_fails 100 10 fresh) =
       Raise (ExternalError "encode failed")
  /\ w_objects (snd (import_data encode_fails 100 10 fresh)) = ∅.
Proof.
  split; [vm_compute; reflexivity|].
  split; [vm_compute; eexists; reflexivity|].
  split; vm_compute; reflexivity.
Qed.

Lemma process_batch_skips_write_failure_witness :
  Forall (embeddable write_fails) ([] ++ chembl99 :: [aspirin])
  /\ exists w3,
       process_batch write_fails ([] ++ chembl99 :: [aspirin]) fresh = (Ok tt, w3)
       /\ w_log w3 = [error_entry chembl99 (ExternalError "object rejected")]
       /\ is_Some (w_objects w3 !! "uuid5:CHEMBL25").
Proof.
  assert (Hall : Forall (embeddable write_fails) ([] ++ chembl99 :: [aspirin])).
  { repeat constructor; eexists _, _; split; vm_compute; reflexivity. }
  split; [exact Hall|].
  destruct (process_batch_skips_write_failure write_fails [] [aspirin]
              chembl99 fresh Hall)
    as (w1 & w2 & w3 & p & v & u & H1 & Hp & H2 & H3 & Hrun & _).
  exists w3. split; [exact Hrun|].
  vm_compute in Hrun. injection Hrun as <-. split; vm_compute; [reflexivity | eexists; reflexivity].
Defined.

(** C2 fails: with a store that rejects CHEMBL99, two records are
    fetched and one is written; [import_data] evaluates to [None], not to
    the count 1, and its last log line reports 2. *)
Lemma import_data_returns_none_not_count :
  fst (import_data write_fails 100 10 fresh) = Ok PyNone
  /\ fst (import_data write_fails 100 10 fresh) <> Ok (PyInt 1)
  /\ size (w_objects (snd (import_data write_fails 100 10 fresh))) = 1%nat
  /\ last (w_log (snd (import_data write_fails 100 10 fresh))) =
       Some (success_entry [chembl99; aspirin])
  /\ log_msg (success_entry [chembl99; aspirin]) =
       "Successfully imported 2 compounds into Weaviate".
Proof.
  split; [vm_compute; reflexivity|].
  split; [vm_compute; discriminate|].
  split; [vm_compute; reflexivity|].
  split; vm_compute; reflexivity.
Qed.

Lemma import_data_returns_none_witness :
  import_data write_fails 100 10 fresh =
    (Ok PyNone, snd (import_data write_fails 100 10 fresh))
  /\ exists compounds w1,
       fetch_molecules write_fails 10 = Ok compounds
       /\ snd (import_data write_fails 100 10 fresh) =
            add_log (success_entry compounds) w1.
Proof.
  assert (Hrun : import_data write_fails 100 10 fresh =
                 (Ok PyNone, snd (import_data write_fails 100 10 fresh))).
  { vm_compute. reflexivity. }
  split; [exact Hrun|].
  exact (proj2 (import_data_returns_none write_fails 100 10 fresh _ _ Hrun)).
Defined.

(** C10 fails for a key that is present with the value [None]: the record
    of CHEMBL7 carries [pref_name: None], as ChEMBL returns it for a
    compound without a preferred name, and the object written for it stores
    [None] under [pref_name]. *)
Lemma data_object_stores_none :
  unnamed !! "pref_name" = Some PyNone
  /\ exists o,
       w_objects (snd (process_batch healthy [unnamed] fresh))
         !! "uuid5:CHEMBL7" = Some o
       /\ io_properties o !! "pref_name" = Some PyNone.
Proof.
  split; [vm_compute; reflexivity|].
  eexists. split; vm_compute; reflexivity.
Qed.

Lemma upserted_object_properties_witness :
  exists o compound description,
    w_objects (snd (process_batch healthy [chembl99] fresh))
      !! "uuid5:CHEMBL99" = Some o
    /\ In compound [chembl99]
    /\ create_compound_description compound = Ok description
    /\ dom (io_properties o) = seven_properties
    /\ io_properties o !! "pref_name" = Some (PyStr "")
    /\ io_properties o !! "max_phase" = Some (PyInt 0)
    /\ io_properties o !! "therapeutic_flag" = Some (PyBool false).
Proof.
  destruct (process_batch healthy [chembl99] fresh) as [r w'] eqn:Hrun.
  assert (Hw : w' = snd (process_batch healthy [chembl99] fresh))
    by (rewrite Hrun; reflexivity).
  assert (Ho : exists o, w_objects w' !! "uuid5:CHEMBL99" = Some o).
  { rewrite Hw. vm_compute. eexists; reflexivity. }
  destruct Ho as [o Ho].
  destruct (upserted_object_properties healthy [chembl99] fresh w' r
              "uuid5:CHEMBL99" o Hrun Ho)
    as (c & d & Hin & Hd & Hdom & _ & _ & Hdef).
  { vm_compute. discriminate. }
  exists o, c, d. simpl. split; [exact Ho|].
  split; [exact Hin|]. split; [exact Hd|]. split; [exact Hdom|].
  destruct Hin as [<-|[]].
  inversion Hdef as [|? ? H1 Hdef1]; subst.
  inversion Hdef1 as [|? ? H2 Hdef2]; subst.
  inversion Hdef2 as [|? ? H3 Hdef3]; subst.
  inversion Hdef3 as [|? ? H4 Hdef4]; subst.
  split; [exact H1|]. split; [exact H3 | exact H4].
Defined.

Lemma reimport_overwrites_witness :
  keyed_by_uuid5 healthy (w_objects fresh)
  /\ exactly_one_object
       (w_objects (snd (process_batch healthy [aspirin]
                          (snd (process_batch healthy [aspirin] fresh)))))
       (PyStr "CHEMBL25").
Proof.
  assert (Hk : keyed_by_uuid5 healthy (w_objects fresh)).
  { intros uuid o Ho. vm_compute in Ho. discriminate. }
  split; [exact Hk|].
  refine (proj1 (reimport_overwrites healthy aspirin (PyStr "CHEMBL25") fresh
                   (snd (process_batch healthy [aspirin] fresh))
                   _ Hk _ _ _ _)).
  - vm_compute. reflexivity.
  - vm_compute. reflexivity.
  - vm_compute. reflexivity.
  - vm_compute. reflexivity.
Defined.


(** ** The reference engine keeps the contract *)

Section ReferenceEngine.

Lemma insert_hit_Forall (P : QueryObject -> Prop) h l :
  P h -> Forall P l -> Forall P (insert_hit h l).
Proof.
  intros Hh Hl. induction Hl as [|x l Hx Hl IH]; simpl.
  - by constructor.
  - destruct (Qle_bool (hit_key h) (hit_key x)); repeat constructor; done.
Qed.

Lemma sort_hits_Forall (P : QueryObject -> Prop) l :
  Forall P l -> Forall P (sort_hits l).
Proof.
  unfold sort_hits. induction 1 as [|x l Hx Hl IH]; simpl.
  - constructor.
  - by apply insert_hit_Forall.
Qed.

Lemma insert_hit_sorted h l :
  StronglySorted key_le l -> StronglySorted key_le (insert_hit h l).
Proof.
  induction 1 as [|x l Hl IH Hx]; simpl.
  - repeat constructor.
  - destruct (Qle_bool (hit_key h) (hit_key x)) eqn:Hle.
    + apply Qle_bool_iff in Hle. constructor; [by constructor|].
      constructor; [exact Hle|].
      eapply Forall_impl; [exact Hx|]. intros y Hy.
      unfold key_le in *. eapply Qle_trans; eassumption.
    + assert (Hxh : key_le x h).
      { unfold key_le. apply Qlt_le_weak, Qnot_le_lt.
        intros Hc. apply Qle_bool_iff in Hc. congruence. }
      constructor; [exact IH|]. by apply insert_hit_Forall.
Qed.

Lemma sort_hits_sorted l : StronglySorted key_le (sort_hits l).
Proof.
  unfold sort_hits. induction l as [|x l IH]; simpl.
  - constructor.
  - by apply insert_hit_sorted.
Qed.

Lemma key_le_closer l : StronglySorted key_le l -> StronglySorted closer l.
Proof.
  induction 1 as [|x l Hl IH Hx]; constructor; [exact IH|].
  eapply Forall_impl; [exact Hx|].
  intros y Hxy da db Ha Hb. unfold key_le, hit_key in Hxy.
  by rewrite Ha, Hb in Hxy.
Qed.

Lemma matching_spec coll q o :
  In o (matching coll q) ->
  (exists uuid, coll !! uuid = Some o)
  /\ forall f, q_where q = Some f -> eval_where f (io_properties o) = true.
Proof.
  unfold matching. rewrite filter_In. intros [Hin Hf]. split.
  - apply list_elem_of_In, list_elem_of_fmap in Hin as ([uuid o'] & -> & Hin).
    apply elem_of_map_to_list in Hin. by exists uuid.
  - intros f Hq. by rewrite Hq in Hf.
Qed.

(** Every hit of the reference engine satisfies a property that all
    hits built from matching objects satisfy. *)
Lemma ref_objects_Forall (P : QueryObject -> Prop) coll q hits :
  (forall o md, In o (matching coll q) ->
     (distance md = None
      \/ exists v, distance md = Some (ref_distance v (io_vector o))) ->
     P {| properties := io_properties o; metadata := md |}) ->
  ref_objects coll q = Ok hits -> Forall P hits.
Proof.
  intros HP. unfold ref_objects. intros Hrun.
  apply rbind_Ok_inv in Hrun as (all & Hall & Hlim).
  assert (Hfa : Forall P all).
  { unfold ref_hits in Hall.
    destruct (q_kind q) as [|[v|]]; [| |discriminate];
      injection Hall as <-; try apply sort_hits_Forall;
      apply Forall_fmap, Forall_forall; intros o Ho;
      (apply HP; [by apply list_elem_of_In|]); simpl; eauto. }
  destruct (q_limit q) as [n|]; [|by injection Hlim as <-].
  destruct (Z.ltb n 0); [discriminate|].
  injection Hlim as <-. by apply Forall_take.
Qed.

Lemma square_nonneg (a : Q) : (0 <= a * a)%Q.
Proof.
  unfold Qle, Qmult. simpl. rewrite Z.mul_1_r. apply Z.square_nonneg.
Qed.

Lemma sq_dist_nonneg v w : (0 <= sq_dist v w)%Q.
Proof.
  revert w. induction v as [|x v IH]; intros [|y w]; simpl; try lra.
  specialize (IH w). pose proof (square_nonneg (x - y)). lra.
Qed.

Lemma ref_distance_unit v w : (0 <= ref_distance v w <= 1)%Q.
Proof.
  unfold ref_distance. pose proof (sq_dist_nonneg v w) as Hs. split.
  - apply Qle_shift_div_l; lra.
  - apply Qle_shift_div_r; lra.
Qed.

(** The distances reported by the reference engine lie in [[0,1]]. *)
Lemma ref_objects_normalized coll q hits :
  ref_objects coll q = Ok hits -> Forall normalized hits.
Proof.
  apply ref_objects_Forall. intros o md _ [Hd|[v Hd]] d; simpl; rewrite Hd.
  - discriminate.
  - intros [= <-]. apply ref_distance_unit.
Qed.

Theorem ref_objects_laws : EngineLaws ref_objects.
Proof.
  split.
  - intros coll q hits. apply ref_objects_Forall.
    intros o md Ho _. apply matching_spec in Ho as [[uuid Hu] _].
    by exists uuid, o.
  - intros coll q f hits Hrun Hq. revert Hrun. apply ref_objects_Forall.
    intros o md Ho _. apply matching_spec in Ho as [_ Hf]. by apply Hf.
  - intros coll q n hits Hrun Hq Hn. unfold ref_objects in Hrun.
    apply rbind_Ok_inv in Hrun as (all & _ & Hlim). rewrite Hq in Hlim.
    destruct (Z.ltb n 0); [discriminate|]. injection Hlim as <-.
    rewrite length_take. lia.
  - intros coll q v hits Hrun Hk Hm. unfold ref_objects in Hrun.
    apply rbind_Ok_inv in Hrun as (all & Hall & Hlim).
    unfold ref_hits in Hall. rewrite Hk in Hall.
    destruct v as [v|]; [|discriminate]. injection Hall as <-.
    set (mk := fun o => {| properties := io_properties o;
                           metadata := {| distance := Some (ref_distance v (io_vector o));
                                          vector := None |} |}) in *.
    assert (Hd : Forall (fun h => is_Some (distance (metadata h)))
                   (sort_hits (mk <$> matching coll q))).
    { apply sort_hits_Forall, Forall_fmap, Forall_forall.
      intros o _. by eexists. }
    pose proof (key_le_closer _ (sort_hits_sorted (mk <$> matching coll q)))
      as Hs.
    destruct (q_limit q) as [n|]; [|by injection Hlim as <-].
    destruct (Z.ltb n 0); [discriminate|]. injection Hlim as <-.
    split; [by apply Forall_take|].
    rewrite <- (take_drop (Z.to_nat n)) in Hs.
    by apply StronglySorted_app_1_l in Hs.
Qed.

End ReferenceEngine.

(** ** The query utility *)

Section QueryFacts.
Variable svc : Services.
Variable collection : Collection.

Lemma logged_raise_not_Ok {A} (msg : string) e s (a : A) s' :
  bind (log_error msg) (fun _ => raise e) s <> (Ok a, s').
Proof. unfold bind, log_error, modify, raise. discriminate. Qed.

Lemma comprehension_friendly hits entries :
  comprehension friendly hits = Ok entries -> Forall2 entry_of hits entries.
Proof.
  revert entries. induction hits as [|h hits IH]; intros entries; simpl.
  - intros [= <-]. constructor.
  - intros Hc. apply rbind_Ok_inv in Hc as (e & He & Hc).
    apply rbind_Ok_inv in Hc as (es & Hes & Hc). injection Hc as <-.
    constructor; [|by apply IH].
    unfold friendly in He. unfold entry_of.
    destruct (distance (metadata h)) as [d|]; [|discriminate].
    injection He as <-. by exists d.
Qed.

Lemma entry_of_certainty h entry d :
  entry_of h entry -> distance (metadata h) = Some d ->
  certainty entry = Some (1 - d)%Q.
Proof.
  intros (d' & Hd & ->) Hd'. rewrite Hd in Hd'. injection Hd' as ->.
  unfold certainty. by rewrite lookup_insert_eq.
Qed.

Lemma entries_sorted hits entries :
  Forall2 entry_of hits entries ->
  StronglySorted closer hits -> StronglySorted scored_above entries.
Proof.
  induction 1 as [|h e hits entries He Hrest IH]; intros Hs.
  - constructor.
  - apply StronglySorted_inv in Hs as [Hs Hh].
    constructor; [by apply IH|].
    destruct He as (d & Hd & ->).
    clear IH Hs. induction Hrest as [|h' e' hits entries He' _ IH'].
    + constructor.
    + apply Forall_cons_iff in Hh as [Hhh' Hh].
      constructor; [|by apply IH'].
      destruct He' as (d' & Hd' & ->).
      exists (1 - d)%Q, (1 - d')%Q. unfold certainty.
      rewrite !lookup_insert_eq. split; [done|]. split; [done|].
      specialize (Hhh' d d' Hd Hd'). lra.
Qed.

Lemma entries_unit hits entries :
  Forall2 entry_of hits entries ->
  Forall normalized hits -> Forall unit_score entries.
Proof.
  induction 1 as [|h e hits entries He _ IH]; intros Hn.
  - constructor.
  - apply Forall_cons_iff in Hn as [Hh Hn]. constructor; [|by apply IH].
    destruct He as (d & Hd & ->). exists (1 - d)%Q. unfold certainty.
    rewrite lookup_insert_eq. split; [done|].
    specialize (Hh d Hd). lra.
Qed.

(** C7: every entry returned by [semantic_search] is a hit of the
    near-vector query with the score [1 - distance] under ["certainty"]; the
    engine reporting its hits nearest first, the entries are in the order of
    descending score; and if the reported distances lie in [[0,1]], so do
    the scores. *)
Theorem semantic_search_scores
  (query : string) (limit : Z) (additional_filters : option WhereFilter)
  (log log' : list LogEntry) (entries : list PyDict) :
  EngineLaws (objects svc) ->
  semantic_search svc collection query limit additional_filters log =
    (Ok entries, log') ->
  exists embedding hits,
    model_encode svc query = Ok embedding
    /\ objects svc collection (search_query embedding limit additional_filters)
       = Ok hits
    /\ Forall2 entry_of hits entries
    /\ Forall2 (fun h entry =>
                  exists d, distance (metadata h) = Some d
                            /\ certainty entry = Some (1 - d)%Q) hits entries
    /\ StronglySorted scored_above entries
    /\ (Forall normalized hits -> Forall unit_score entries).
Proof.
  intros Hlaws Hrun. unfold semantic_search in Hrun.
  apply try_except_Ok_inv in Hrun as [Hrun|(e & s1 & _ & Hh)];
    [|by apply logged_raise_not_Ok in Hh].
  apply bind_Ok_inv in Hrun as (embedding & s1 & Henc & Hrun).
  apply bind_Ok_inv in Hrun as (hits & s2 & Hq & Hrun).
  unfold lift in *. injection Henc as Henc _. injection Hq as Hq _.
  injection Hrun as Hc _.
  apply comprehension_friendly in Hc.
  fold (search_query embedding limit additional_filters) in Hq.
  exists embedding, hits. split; [done|]. split; [done|]. split; [done|].
  split; [|split].
  - eapply Forall2_impl; [exact Hc|]. intros h entry He.
    destruct He as (d & Hd & He). exists d. split; [done|].
    eapply entry_of_certainty; [|done]. by exists d.
  - apply (entries_sorted _ _ Hc).
    eapply (law_near _ Hlaws); [exact Hq| |].
    + by destruct additional_filters.
    + destruct additional_filters; simpl; auto.
  - by apply entries_unit.
Qed.

(** C8: [filter_by_phase] sends a [get] query (no vector), filtered on
    [max_phase >= min_phase] and limited to [limit]; every entry it returns
    has a [max_phase] not below [min_phase], and there are at most [limit]
    of them. Against the collection with the phases 4, 2, 3, 4, 0, three
    records match [min_phase = 3], and with [limit = 2] the first two of
    them are returned. *)
Theorem filter_by_phase_sound
  (min_phase limit : Z) (log log' : list LogEntry) (results : list PyDict) :
  EngineLaws (objects svc) ->
  filter_by_phase svc collection min_phase limit log = (Ok results, log') ->
  (Forall (phase_at_least min_phase) results
   /\ (0 <= limit -> Z.of_nat (length results) <= limit)
   /\ exists hits,
        objects svc collection (phase_query min_phase limit) = Ok hits
        /\ q_kind (phase_query min_phase limit) = Get
        /\ results = properties <$> hits)
  /\ (Examples.phases (io_properties <$> (snd <$> map_to_list Examples.five_phases))
      = Some <$> [PyInt 4; PyInt 2; PyInt 3; PyInt 4; PyInt 0]
      /\ Examples.phases
           (Examples.results_of
              (filter_by_phase Examples.reference Examples.five_phases 3 5 []))
         = Some <$> [PyInt 4; PyInt 3; PyInt 4]
      /\ Examples.ids
           (Examples.results_of
              (filter_by_phase Examples.reference Examples.five_phases 3 5 []))
         = Some <$> [PyStr "CHEMBL13"; PyStr "CHEMBL12"; PyStr "CHEMBL14"]
      /\ Examples.ids
           (Examples.results_of
              (filter_by_phase Examples.reference Examples.five_phases 3 2 []))
         = Some <$> [PyStr "CHEMBL13"; PyStr "CHEMBL12"]).
Proof.
  intros Hlaws Hrun. split.
  - unfold filter_by_phase in Hrun.
    apply try_except_Ok_inv in Hrun as [Hrun|(e & s1 & _ & Hh)];
      [|by apply logged_raise_not_Ok in Hh].
    apply bind_Ok_inv in Hrun as (hits & s1 & Hq & Hrun).
    unfold lift in Hq. injection Hq as Hq _.
    unfold ret in Hrun. injection Hrun as <- _.
    fold (phase_query min_phase limit) in Hq.
    split; [|split].
    + apply Forall_fmap.
      eapply Forall_impl; [exact (law_where _ Hlaws _ _ _ _ Hq eq_refl)|].
      intros h Hw. unfold eval_where in Hw. simpl in Hw.
      unfold compose, phase_at_least.
      destruct (properties h !! "max_phase") as [v|]; [|discriminate].
      assert (Hq' : match stored_number v with
                    | Some q => Qle_bool (inject_Z min_phase) q
                    | None => false
                    end = true) by (destruct v; exact Hw).
      destruct (stored_number v) as [q|] eqn:Hv; [|discriminate].
      exists v, q. split; [done|]. split; [done|].
      by apply Qle_bool_iff.
    + intros Hl. rewrite length_fmap.
      exact (law_limit _ Hlaws _ _ _ _ Hq eq_refl Hl).
    + by exists hits.
  - repeat split; vm_compute; reflexivity.
Qed.

End QueryFacts.

Section SimilarFacts.
Variable svc : Services.
Variable collection : Collection.

Lemma py_slice_to {A} (xs : list A) (n : Z) :
  py_slice xs None (Some n) =
  take (Z.to_nat (slice_index (Z.of_nat (length xs)) n)) xs.
Proof. unfold py_slice. simpl. by rewrite Z.sub_0_r. Qed.

Lemma py_slice_to_length {A} (xs : list A) (n : Z) :
  0 <= n -> Z.of_nat (length (py_slice xs None (Some n))) <= n.
Proof.
  intros Hn. rewrite py_slice_to, length_take. unfold slice_index.
  destruct (Z.ltb_spec n 0); lia.
Qed.

Lemma other_than_neq chembl_id entry :
  other_than chembl_id entry ->
  entry !! "molecule_chembl_id" <> Some (PyStr chembl_id).
Proof.
  intros (v & Hv & Hne) Heq. rewrite Hv in Heq. injection Heq as ->.
  unfold py_eq in Hne. simpl in Hne. by rewrite String.eqb_refl in Hne.
Qed.

Lemma comprehension_if_excludes chembl_id similar results :
  comprehension_if
    (fun obj =>
       id <~ dict_item_pure (properties obj) "molecule_chembl_id" ;;
       Ok (negb (py_eq id (PyStr chembl_id))))
    friendly similar = Ok results ->
  Forall (other_than chembl_id) results.
Proof.
  revert results. induction similar as [|h l IH]; intros results; simpl.
  - intros [= <-]. constructor.
  - intros Hc. apply rbind_Ok_inv in Hc as (b & Hb & Hc).
    apply rbind_Ok_inv in Hb as (id & Hid & Hb). injection Hb as <-.
    destruct (py_eq id (PyStr chembl_id)) eqn:Hne; simpl in Hc;
      [by apply IH|].
    apply rbind_Ok_inv in Hc as (e & He & Hc).
    apply rbind_Ok_inv in Hc as (es & Hes & Hc). injection Hc as <-.
    constructor; [|by apply IH].
    unfold friendly in He.
    destruct (distance (metadata h)) as [d|]; [|discriminate].
    injection He as <-. exists id. split; [|done].
    rewrite lookup_insert_ne by done.
    unfold dict_item_pure in Hid.
    by destruct (properties h !! "molecule_chembl_id"); simplify_eq.
Qed.

(** C5: a result of [get_similar_compounds] holds no entry whose
    [molecule_chembl_id] equals [chembl_id], and, [limit] being a count of
    results (not negative), at most [limit] entries; the near-vector query
    behind it asks the engine for [limit + 1] objects. *)
Theorem similar_compounds_exclude_reference
  (chembl_id : string) (limit : Z) (log log' : list LogEntry)
  (results : list PyDict) :
  get_similar_compounds svc collection chembl_id limit log =
    (Ok results, log') ->
  Forall (other_than chembl_id) results
  /\ Forall (fun entry =>
               entry !! "molecule_chembl_id" <> Some (PyStr chembl_id)) results
  /\ (0 <= limit -> Z.of_nat (length results) <= limit)
  /\ exists ref_vector similar,
       objects svc collection
         (query_near_vector ref_vector (limit + 1) ["distance"]) = Ok similar
       /\ q_limit (query_near_vector ref_vector (limit + 1) ["distance"])
          = Some (limit + 1).
Proof.
  intros Hrun. unfold get_similar_compounds in Hrun.
  apply try_except_Ok_inv in Hrun as [Hrun|(e & s1 & _ & Hh)];
    [|by apply logged_raise_not_Ok in Hh].
  apply bind_Ok_inv in Hrun as (reference & s1 & _ & Hrun).
  destruct reference as [|reference0 ?]; [discriminate|].
  apply bind_Ok_inv in Hrun as (similar & s2 & Hq & Hrun).
  apply bind_Ok_inv in Hrun as (all & s3 & Hc & Hrun).
  unfold lift in *. injection Hq as Hq _. injection Hc as Hc _.
  unfold ret in Hrun. injection Hrun as <- _.
  apply comprehension_if_excludes in Hc.
  assert (Hex : Forall (other_than chembl_id) (py_slice all None (Some limit))).
  { rewrite py_slice_to. by apply Forall_take. }
  split; [done|]. split; [|split].
  - eapply Forall_impl; [exact Hex|]. apply other_than_neq.
  - apply py_slice_to_length.
  - by exists (vector (metadata reference0)), similar.
Qed.

(** C6: when no object of the collection has [chembl_id] as its
    [molecule_chembl_id], [get_similar_compounds] returns no list: it raises,
    after logging the exception. The exception is the [ValueError] "No
    compound found with ChEMBL ID: ..." whenever the lookup of the reference
    is answered by the engine, and the engine's own exception otherwise. *)
Theorem similar_compounds_not_found
  (chembl_id : string) (limit : Z) (log : list LogEntry) :
  EngineLaws (objects svc) ->
  absent_from collection chembl_id ->
  exists e,
    get_similar_compounds svc collection chembl_id limit log =
      (Raise e, (log ++ [similar_error_entry e])%list)
    /\ match objects svc collection (reference_query chembl_id) with
       | Ok _ => e = not_found chembl_id
       | Raise e0 => e = e0
       end.
Proof.
  intros Hlaws Habs.
  unfold get_similar_compounds, try_except, bind, lift, raise.
  fold (reference_query chembl_id).
  destruct (objects svc collection (reference_query chembl_id))
    as [hits|e0] eqn:Hq.
  - destruct hits as [|h hits].
    + exists (not_found chembl_id). by split.
    + exfalso.
      pose proof (law_stored _ Hlaws _ _ _ Hq) as Hs.
      pose proof (law_where _ Hlaws _ _ _ _ Hq eq_refl) as Hw.
      apply Forall_cons_iff in Hs as [(uuid & o & Ho & Hp) _].
      apply Forall_cons_iff in Hw as [Hw _].
      apply (Habs uuid o Ho). rewrite <- Hp.
      unfold eval_where in Hw. simpl in Hw.
      destruct (properties h !! "molecule_chembl_id") as [[]|];
        try discriminate.
      apply String.eqb_eq in Hw. by subst.
  - exists e0. by split.
Qed.

End SimilarFacts.

(** ** More on the query utility *)

Section QueryExtras.
Variable svc : Services.
Variable collection : Collection.

Lemma comprehension_if_origin {c : QueryObject -> result bool} similar rs :
  comprehension_if c friendly similar = Ok rs ->
  Forall (fun entry => exists h, In h similar /\ entry_of h entry) rs.
Proof.
  revert rs. induction similar as [|h l IH]; intros rs; simpl.
  - intros [= <-]. constructor.
  - intros Hc. apply rbind_Ok_inv in Hc as (b & _ & Hc).
    destruct b.
    + apply rbind_Ok_inv in Hc as (e & He & Hc).
      apply rbind_Ok_inv in Hc as (es & Hes & Hc). injection Hc as <-.
      constructor.
      * exists h. split; [by left|].
        unfold friendly in He. unfold entry_of.
        destruct (distance (metadata h)) as [d|]; [|discriminate].
        injection He as <-. by exists d.
      * eapply Forall_impl; [exact (IH _ Hes)|].
        intros e' (h' & Hin & He'). exists h'. split; [by right | done].
    + eapply Forall_impl; [exact (IH _ Hc)|].
      intros e' (h' & Hin & He'). exists h'. split; [by right | done].
Qed.

Lemma comprehension_if_sorted {c : QueryObject -> result bool} similar rs :
  StronglySorted closer similar ->
  comprehension_if c friendly similar = Ok rs ->
  StronglySorted scored_above rs.
Proof.
  intros Hs. revert rs. induction Hs as [|h l Hl IH Hh]; intros rs; simpl.
  - intros [= <-]. constructor.
  - intros Hc. apply rbind_Ok_inv in Hc as (b & _ & Hc).
    destruct b; [|by apply IH].
    apply rbind_Ok_inv in Hc as (e & He & Hc).
    apply rbind_Ok_inv in Hc as (es & Hes & Hc). injection Hc as <-.
    constructor; [by apply IH|].
    unfold friendly in He.
    destruct (distance (metadata h)) as [d|] eqn:Hd; [|discriminate].
    injection He as <-.
    eapply Forall_impl; [exact (comprehension_if_origin _ _ Hes)|].
    intros e' (h' & Hin & d' & Hd' & ->).
    rewrite Forall_forall in Hh.
    specialize (Hh h' (proj2 (list_elem_of_In _ _) Hin) d d' Hd Hd').
    exists (1 - d)%Q, (1 - d')%Q. unfold certainty.
    rewrite !lookup_insert_eq. split; [done|]. split; [done|]. lra.
Qed.

Lemma stored_entry hits entries :
  Forall (fun h => exists uuid o,
              collection !! uuid = Some o /\ properties h = io_properties o)
    hits ->
  Forall (fun entry => exists h, In h hits /\ entry_of h entry) entries ->
  Forall (scored_object collection) entries.
Proof.
  intros Hst Hen. eapply Forall_impl; [exact Hen|].
  intros entry (h & Hin & d & Hd & ->).
  rewrite Forall_forall in Hst.
  destruct (Hst h (proj2 (list_elem_of_In _ _) Hin)) as (uuid & o & Ho & Hp).
  exists uuid, o, d. by rewrite <- Hp.
Qed.

Lemma Forall2_origin hits entries :
  Forall2 entry_of hits entries ->
  Forall (fun entry => exists h, In h hits /\ entry_of h entry) entries.
Proof.
  induction 1 as [|h e hits entries He _ IH]; constructor.
  - exists h. split; [by left | done].
  - eapply Forall_impl; [exact IH|].
    intros e' (h' & Hin & He'). exists h'. split; [by right | done].
Qed.

(** X19: The three query functions write to the log only when they raise,
    and then exactly one error line, which carries the text of the
    exception they raise. *)
Theorem query_functions_log_failures
  (query chembl_id : string) (limit min_phase : Z)
  (additional_filters : option WhereFilter) (log : list LogEntry) :
  snd (semantic_search svc collection query limit additional_filters log) =
    log_after "Error in semantic search: " log
      (fst (semantic_search svc collection query limit additional_filters log))
  /\ snd (filter_by_phase svc collection min_phase limit log) =
       log_after "Error in phase filter: " log
         (fst (filter_by_phase svc collection min_phase limit log))
  /\ snd (get_similar_compounds svc collection chembl_id limit log) =
       log_after "Error finding similar compounds: " log
         (fst (get_similar_compounds svc collection chembl_id limit log)).
Proof.
  split; [|split].
  - unfold semantic_search, try_except, bind, lift, raise, log_error, modify.
    destruct (model_encode svc query) as [v|e]; [|reflexivity].
    destruct (objects svc collection _) as [hits|e]; [|reflexivity].
    destruct (comprehension friendly hits); reflexivity.
  - unfold filter_by_phase, try_except, bind, lift, ret, raise, log_error,
      modify.
    destruct (objects svc collection _) as [hits|e]; reflexivity.
  - unfold get_similar_compounds, try_except, bind, lift, ret, raise,
      log_error, modify.
    destruct (objects svc collection _) as [[|h hits]|e];
      [reflexivity| |reflexivity].
    destruct (objects svc collection _) as [similar|e]; [|reflexivity].
    destruct (comprehension_if _ friendly similar); reflexivity.
Qed.


(** X22: The entries returned by [get_similar_compounds] are in the order of
    descending score, and each is the property bag of an object of the
    collection with the score put under ["certainty"]. *)
Theorem similar_compounds_ranked
  (chembl_id : string) (limit : Z) (log log' : list LogEntry)
  (results : list PyDict) :
  EngineLaws (objects svc) ->
  get_similar_compounds svc collection chembl_id limit log =
    (Ok results, log') ->
  StronglySorted scored_above results
  /\ Forall (scored_object collection) results.
Proof.
  intros Hlaws Hrun. unfold get_similar_compounds in Hrun.
  apply try_except_Ok_inv in Hrun as [Hrun|(e & s1 & _ & Hh)];
    [|by apply logged_raise_not_Ok in Hh].
  apply bind_Ok_inv in Hrun as (reference & s1 & _ & Hrun).
  destruct reference as [|reference0 ?]; [discriminate|].
  apply bind_Ok_inv in Hrun as (similar & s2 & Hq & Hrun).
  apply bind_Ok_inv in Hrun as (all & s3 & Hc & Hrun).
  unfold lift in *. injection Hq as Hq _. injection Hc as Hc _.
  unfold ret in Hrun. injection Hrun as <- _.
  rewrite py_slice_to.
  destruct (law_near _ Hlaws _ _ _ _ Hq eq_refl) as [_ Hsorted];
    [simpl; auto|].
  split.
  - pose proof (comprehension_if_sorted _ _ Hsorted Hc) as Hs.
    rewrite <- (take_drop (Z.to_nat (slice_index (Z.of_nat (length all)) limit))
                  all) in Hs.
    by apply StronglySorted_app_1_l in Hs.
  - apply Forall_take.
    eapply stored_entry; [exact (law_stored _ Hlaws _ _ _ Hq)|].
    by eapply comprehension_if_origin.
Qed.

(** X24: Every entry returned by [filter_by_phase] is the property bag of an
    object of the collection, as stored: nothing is added to it. *)
Theorem filter_by_phase_returns_stored
  (min_phase limit : Z) (log log' : list LogEntry) (results : list PyDict) :
  EngineLaws (objects svc) ->
  filter_by_phase svc collection min_phase limit log = (Ok results, log') ->
  Forall (fun entry => exists uuid o,
              collection !! uuid = Some o /\ entry = io_properties o) results.
Proof.
  intros Hlaws Hrun. unfold filter_by_phase in Hrun.
  apply try_except_Ok_inv in Hrun as [Hrun|(e & s1 & _ & Hh)];
    [|by apply logged_raise_not_Ok in Hh].
  apply bind_Ok_inv in Hrun as (hits & s1 & Hq & Hrun).
  unfold lift in Hq. injection Hq as Hq _.
  unfold ret in Hrun. injection Hrun as <- _.
  apply Forall_fmap.
  eapply Forall_impl; [exact (law_stored _ Hlaws _ _ _ Hq)|].
  intros h (uuid & o & Ho & Hp). by exists uuid, o.
Qed.

(** X21: With a filter, the objects behind the entries of [semantic_search]
    all satisfy it. *)
Theorem semantic_search_respects_filter
  (query : string) (limit : Z) (f : WhereFilter)
  (log log' : list LogEntry) (entries : list PyDict) :
  EngineLaws (objects svc) ->
  semantic_search svc collection query limit (Some f) log =
    (Ok entries, log') ->
  Forall (fun entry =>
            exists props d,
              eval_where f props = true
              /\ entry = <[ "certainty" := PyFloat (1 - d) ]> props)
    entries.
Proof.
  intros Hlaws Hrun. unfold semantic_search in Hrun.
  apply try_except_Ok_inv in Hrun as [Hrun|(e & s1 & _ & Hh)];
    [|by apply logged_raise_not_Ok in Hh].
  apply bind_Ok_inv in Hrun as (embedding & s1 & _ & Hrun).
  apply bind_Ok_inv in Hrun as (hits & s2 & Hq & Hrun).
  unfold lift in *. injection Hq as Hq _. injection Hrun as Hc _.
  apply comprehension_friendly, Forall2_origin in Hc.
  pose proof (law_where _ Hlaws _ _ _ _ Hq eq_refl) as Hw.
  rewrite Forall_forall in Hw.
  eapply Forall_impl; [exact Hc|].
  intros entry (h & Hin & d & Hd & ->).
  exists (properties h), d. split; [|done].
  apply Hw. by apply list_elem_of_In.
Qed.

Lemma comprehension_if_complete {c : QueryObject -> result bool} similar all :
  comprehension_if c friendly similar = Ok all ->
  Forall (fun h => c h = Ok true -> exists entry, In entry all /\ entry_of h entry)
    similar.
Proof.
  revert all. induction similar as [|h l IH]; intros all; simpl; [constructor|].
  intros Hc. apply rbind_Ok_inv in Hc as (b & Hb & Hc).
  destruct b.
  - apply rbind_Ok_inv in Hc as (e & He & Hc).
    apply rbind_Ok_inv in Hc as (es & Hes & Hc). injection Hc as <-.
    constructor.
    + intros _. exists e. split; [by left|].
      unfold friendly in He. unfold entry_of.
      destruct (distance (metadata h)) as [d|]; [|discriminate].
      injection He as <-. by exists d.
    + eapply Forall_impl; [exact (IH _ Hes)|].
      intros h' Hh' Hk. destruct (Hh' Hk) as (e' & Hin & He').
      exists e'. split; [by right | done].
  - constructor; [congruence | by apply IH].
Qed.

Lemma comprehension_if_length {c : QueryObject -> result bool} similar all :
  comprehension_if c friendly similar = Ok all ->
  (length all <= length similar)%nat
  /\ (Exists (fun h => c h = Ok false) similar ->
      (length all < length similar)%nat).
Proof.
  revert all. induction similar as [|h l IH]; intros all; simpl.
  - intros [= <-]. split; [done|]. by inversion 1.
  - intros Hc. apply rbind_Ok_inv in Hc as (b & Hb & Hc).
    destruct b.
    + apply rbind_Ok_inv in Hc as (e & He & Hc).
      apply rbind_Ok_inv in Hc as (es & Hes & Hc). injection Hc as <-.
      destruct (IH _ Hes) as [Hle Hlt]. simpl. split; [lia|].
      intros Hex. apply Exists_cons in Hex as [Hh|Hex]; [congruence|].
      specialize (Hlt Hex). lia.
    + destruct (IH _ Hc) as [Hle Hlt]. split; lia.
Qed.

(** X23: The extra object asked from the engine makes up for the reference:
    when the reference itself is among the [limit + 1] objects the engine
    reports, every other reported object has its entry in the result of
    [get_similar_compounds], nothing being cut by the slice. *)
Theorem similar_compounds_complete
  (chembl_id : string) (limit : Z) (log log' : list LogEntry)
  (reference0 : QueryObject) (others similar : list QueryObject)
  (results : list PyDict) :
  EngineLaws (objects svc) ->
  0 <= limit ->
  objects svc collection (reference_query chembl_id) = Ok (reference0 :: others) ->
  objects svc collection
    (query_near_vector (vector (metadata reference0)) (limit + 1) ["distance"])
    = Ok similar ->
  Exists (fun h => properties h !! "molecule_chembl_id" = Some (PyStr chembl_id))
    similar ->
  get_similar_compounds svc collection chembl_id limit log =
    (Ok results, log') ->
  Forall (fun h =>
            forall v,
              properties h !! "molecule_chembl_id" = Some v ->
              py_eq v (PyStr chembl_id) = false ->
              exists entry, In entry results /\ entry_of h entry)
    similar.
Proof.
  intros Hlaws Hlimit Href Hsim Hself Hrun.
  unfold get_similar_compounds, try_except, bind, lift, ret, raise,
    log_error, modify in Hrun.
  fold (reference_query chembl_id) in Hrun. rewrite Href, Hsim in Hrun.
  destruct (comprehension_if _ friendly similar) as [all|e] eqn:Hc;
    [|discriminate].
  injection Hrun as <- _.
  destruct (comprehension_if_length _ _ Hc) as [_ Hlt].
  pose proof (law_limit _ Hlaws _ _ _ _ Hsim eq_refl ltac:(lia)) as Hlen.
  assert (Hshort : (length all < length similar)%nat).
  { apply Hlt. eapply Exists_impl; [exact Hself|].
    intros h Hh. unfold dict_item_pure. rewrite Hh. simpl.
    unfold py_eq. simpl. by rewrite String.eqb_refl. }
  rewrite py_slice_to, take_ge.
  2:{ unfold slice_index. destruct (Z.ltb_spec limit 0); lia. }
  eapply Forall_impl; [exact (comprehension_if_complete _ _ Hc)|].
  intros h Hh v Hv Hne. apply Hh.
  unfold dict_item_pure. rewrite Hv. simpl. by rewrite Hne.
Qed.

End QueryExtras.

(** ** The query utility at concrete inputs *)

Lemma returned_run (run : result (list PyDict) * list LogEntry) :
  returned run = true -> run = (Ok (results_of run), []).
Proof.
  destruct run as [[entries|e] [|entry log]]; simpl; try discriminate.
  reflexivity.
Qed.

Lemma five_phases_without_chembl25 : absent_from five_phases "CHEMBL25".
Proof.
  intros uuid o Ho Hid.
  assert (Hall : forallb
            (fun kv : string * IndexedObject =>
               negb match io_properties kv.2 !! "molecule_chembl_id" with
                    | Some (PyStr s) => String.eqb s "CHEMBL25"
                    | _ => false
                    end)
            (map_to_list five_phases) = true) by (vm_compute; reflexivity).
  rewrite forallb_forall in Hall.
  apply elem_of_map_to_list, list_elem_of_In in Ho.
  specialize (Hall _ Ho). simpl in Hall. rewrite Hid in Hall. discriminate.
Qed.

Lemma similar_compounds_exclude_reference_witness :
  returned (get_similar_compounds reference five_phases "CHEMBL13" 3 []) = true
  /\ Forall (other_than "CHEMBL13")
       (results_of (get_similar_compounds reference five_phases "CHEMBL13" 3 []))
  /\ (0 <= 3 ->
      Z.of_nat (length (results_of
                          (get_similar_compounds reference five_phases
                             "CHEMBL13" 3 []))) <= 3).
Proof.
  assert (Hret : returned (get_similar_compounds reference five_phases
                             "CHEMBL13" 3 []) = true)
    by (vm_compute; reflexivity).
  split; [exact Hret|].
  destruct (similar_compounds_exclude_reference reference five_phases
              "CHEMBL13" 3 [] [] _ (returned_run _ Hret))
    as (Hex & _ & Hlen & _).
  split; [exact Hex | exact Hlen].
Defined.

Lemma similar_compounds_not_found_witness :
  EngineLaws (objects reference)
  /\ absent_from five_phases "CHEMBL25"
  /\ exists e,
       get_similar_compounds reference five_phases "CHEMBL25" 3 [] =
         (Raise e, [similar_error_entry e]).
Proof.
  split; [exact ref_objects_laws|].
  split; [exact five_phases_without_chembl25|].
  destruct (similar_compounds_not_found reference five_phases "CHEMBL25" 3 []
              ref_objects_laws five_phases_without_chembl25)
    as (e & Hrun & _).
  exists e. exact Hrun.
Defined.

Lemma semantic_search_scores_witness :
  EngineLaws (objects reference)
  /\ returned (semantic_search reference five_phases "phase" 3 None []) = true
  /\ StronglySorted scored_above
       (results_of (semantic_search reference five_phases "phase" 3 None []))
  /\ Forall unit_score
       (results_of (semantic_search reference five_phases "phase" 3 None [])).
Proof.
  split; [exact ref_objects_laws|].
  assert (Hret : returned (semantic_search reference five_phases "phase" 3
                             None []) = true)
    by (vm_compute; reflexivity).
  split; [exact Hret|].
  destruct (semantic_search_scores reference five_phases "phase" 3 None
              [] [] _ ref_objects_laws (returned_run _ Hret))
    as (v & hits & _ & Hq & _ & _ & Hs & Hunit).
  split; [exact Hs|].
  exact (Hunit (ref_objects_normalized _ _ _ Hq)).
Defined.

Lemma filter_by_phase_sound_witness :
  EngineLaws (objects reference)
  /\ returned (filter_by_phase reference five_phases 3 2 []) = true
  /\ Forall (phase_at_least 3)
       (results_of (filter_by_phase reference five_phases 3 2 [])).
Proof.
  split; [exact ref_objects_laws|].
  assert (Hret : returned (filter_by_phase reference five_phases 3 2 []) = true)
    by (vm_compute; reflexivity).
  split; [exact Hret|].
  exact (proj1 (proj1 (filter_by_phase_sound reference five_phases 3 2 [] []
                         _ ref_objects_laws (returned_run _ Hret)))).
Defined.

(** ** More concrete runs *)

Lemma run_raised {A S} (run : result A * S) (e : exn) :
  outcome run = Some e -> run = (Raise e, snd run).
Proof.
  destruct run as [[a|e'] s]; unfold outcome; simpl; [discriminate|].
  by intros [= ->].
Qed.

Lemma run_returned {A S} (run : result A * S) :
  outcome run = None -> exists a, run = (Ok a, snd run).
Proof.
  destruct run as [[a|e'] s]; unfold outcome; simpl; [|discriminate].
  intros _. by exists a.
Qed.

Lemma fresh_keyed (lib : Collaborators) : keyed_by_uuid5 lib (w_objects fresh).
Proof. intros uuid o Ho. vm_compute in Ho. discriminate. Qed.

Lemma healthy_accepts_all : accepts_all healthy.
Proof. intros objs p v u. reflexivity. Qed.

Lemma description_is_sentence_witness :
  aspirin !! "molecule_chembl_id" = Some (PyStr "CHEMBL25")
  /\ create_compound_description aspirin =
       Ok (sentence aspirin (PyStr "CHEMBL25")).
Proof.
  assert (Hid : aspirin !! "molecule_chembl_id" = Some (PyStr "CHEMBL25"))
    by (vm_compute; reflexivity).
  split; [exact Hid|]. exact (description_is_sentence aspirin _ Hid).
Defined.

Lemma description_appends_phase_witness :
  1 <= 4 <= 4
  /\ aspirin !! "max_phase" = Some (PyInt 4)
  /\ create_compound_description aspirin =
       Ok ("This is a Small molecule named Aspirin with ChEMBL ID CHEMBL25."
           +:+ " " +:+ int_dict_get phase_desc (PyInt 4) "").
Proof.
  assert (Hz : 1 <= 4 <= 4) by lia.
  assert (Hp : aspirin !! "max_phase" = Some (PyInt 4))
    by (vm_compute; reflexivity).
  split; [exact Hz|]. split; [exact Hp|].
  apply (description_appends_phase aspirin 4 _ Hz Hp).
  vm_compute. reflexivity.
Defined.

Lemma description_ignores_non_numeric_phase_witness :
  text_phase !! "max_phase" = Some (PyStr "4.0")
  /\ py_num (PyStr "4.0") = None
  /\ create_compound_description text_phase =
     create_compound_description (delete "max_phase" text_phase).
Proof.
  assert (Hp : text_phase !! "max_phase" = Some (PyStr "4.0"))
    by (vm_compute; reflexivity).
  split; [exact Hp|]. split; [reflexivity|].
  exact (description_ignores_non_numeric_phase text_phase _ Hp eq_refl).
Defined.

Lemma process_batch_aborts_witness :
  Forall (embeddable encode_fails) [aspirin]
  /\ unembeddable encode_fails chembl99 (ExternalError "encode failed")
  /\ exists w1,
       process_batch encode_fails ([aspirin] ++ chembl99 :: [aspirin]) fresh =
         (Raise (ExternalError "encode failed"), w1).
Proof.
  assert (Hb : Forall (embeddable encode_fails) [aspirin]).
  { repeat constructor; eexists _, _; split; vm_compute; reflexivity. }
  assert (Hc : unembeddable encode_fails chembl99
                 (ExternalError "encode failed")).
  { right. eexists. split; vm_compute; reflexivity. }
  split; [exact Hb|]. split; [exact Hc|].
  destruct (process_batch_aborts encode_fails [aspirin] [aspirin] chembl99
              _ fresh Hb Hc) as (w1 & _ & Hrun).
  exists w1. exact Hrun.
Defined.

Lemma process_batch_only_adds_witness :
  dom (w_objects fresh)
    ⊆ dom (w_objects (snd (process_batch write_fails [chembl99; aspirin] fresh))).
Proof.
  exact (proj1 (proj2 (process_batch_only_adds write_fails _ fresh _ _
                         (surjective_pairing _)))).
Defined.

Lemma import_data_batch_size_irrelevant_witness :
  0 < 2 /\ 0 < 100
  /\ import_data healthy 2 5 fresh = import_data healthy 100 5 fresh.
Proof.
  assert (H2 : 0 < 2) by lia. assert (H100 : 0 < 100) by lia.
  split; [exact H2|]. split; [exact H100|].
  exact (import_data_batch_size_irrelevant healthy 2 100 5 fresh H2 H100).
Defined.

Lemma import_data_zero_batch_size_witness :
  collection_available healthy fresh
  /\ fetch_molecules healthy 5 = Ok five_records
  /\ exists w',
       import_data healthy 0 5 fresh =
         (Raise (ValueError "range() arg 3 must not be zero"), w')
       /\ w_objects w' = w_objects fresh.
Proof.
  assert (Ha : collection_available healthy fresh) by (right; reflexivity).
  assert (Hf : fetch_molecules healthy 5 = Ok five_records)
    by reflexivity.
  split; [exact Ha|]. split; [exact Hf|].
  destruct (import_data_zero_batch_size healthy 5 fresh _ Ha Hf)
    as (w' & Hrun & Ho & _).
  exists w'. split; [exact Hrun | exact Ho].
Defined.

Lemma import_data_negative_batch_size_witness :
  -1 < 0
  /\ collection_available healthy fresh
  /\ fetch_molecules healthy 5 = Ok five_records
  /\ exists w',
       import_data healthy (-1) 5 fresh = (Ok PyNone, w')
       /\ w_objects w' = w_objects fresh
       /\ last (w_log w') = Some (success_entry five_records).
Proof.
  assert (Hb : -1 < 0) by lia.
  assert (Ha : collection_available healthy fresh) by (right; reflexivity).
  assert (Hf : fetch_molecules healthy 5 = Ok five_records)
    by reflexivity.
  split; [exact Hb|]. split; [exact Ha|]. split; [exact Hf|].
  exact (import_data_negative_batch_size healthy (-1) 5 fresh _ Hb Ha Hf).
Defined.


Lemma import_data_fetch_failure_witness :
  collection_available chembl_down fresh
  /\ fetch_molecules chembl_down 10 = Raise (ExternalError "ChEMBL unreachable")
  /\ exists w',
       import_data chembl_down 100 10 fresh =
         (Raise (ExternalError "ChEMBL unreachable"), w')
       /\ w_objects w' = w_objects fresh.
Proof.
  assert (Ha : collection_available chembl_down fresh) by (right; reflexivity).
  split; [exact Ha|]. split; [reflexivity|].
  destruct (import_data_fetch_failure chembl_down 100 10 fresh _ Ha eq_refl)
    as (w' & before & Hrun & Ho & _).
  exists w'. split; [exact Hrun | exact Ho].
Defined.

Lemma import_data_logs_failure_witness :
  outcome (import_data encode_fails 100 10 fresh) =
    Some (ExternalError "encode failed")
  /\ last (w_log (snd (import_data encode_fails 100 10 fresh))) =
       Some (import_error_entry (ExternalError "encode failed")).
Proof.
  assert (Hout : outcome (import_data encode_fails 100 10 fresh) =
                 Some (ExternalError "encode failed"))
    by (vm_compute; reflexivity).
  split; [exact Hout|].
  exact (import_data_logs_failure encode_fails 100 10 fresh _ _
           (run_raised _ _ Hout)).
Defined.

Lemma import_data_only_adds_witness :
  dom (w_objects fresh)
    ⊆ dom (w_objects (snd (import_data write_fails 100 10 fresh))).
Proof.
  exact (import_data_only_adds write_fails 100 10 fresh _ _
           (surjective_pairing _)).
Defined.

Lemma import_data_keeps_keying_witness :
  keyed_by_uuid5 healthy (w_objects fresh)
  /\ keyed_by_uuid5 healthy
       (w_objects (snd (import_data healthy 2 5 fresh))).
Proof.
  split; [exact (fresh_keyed healthy)|].
  exact (import_data_keeps_keying healthy 2 5 fresh _ _
           (fresh_keyed healthy) (surjective_pairing _)).
Defined.




Lemma similar_compounds_ranked_witness :
  EngineLaws (objects reference)
  /\ returned (get_similar_compounds reference five_phases "CHEMBL13" 3 [])
     = true
  /\ StronglySorted scored_above
       (results_of (get_similar_compounds reference five_phases "CHEMBL13" 3 [])).
Proof.
  split; [exact ref_objects_laws|].
  assert (Hret : returned (get_similar_compounds reference five_phases
                             "CHEMBL13" 3 []) = true)
    by (vm_compute; reflexivity).
  split; [exact Hret|].
  exact (proj1 (similar_compounds_ranked reference five_phases "CHEMBL13" 3
                  [] [] _ ref_objects_laws (returned_run _ Hret))).
Defined.

Lemma filter_by_phase_returns_stored_witness :
  EngineLaws (objects reference)
  /\ returned (filter_by_phase reference five_phases 3 2 []) = true
  /\ Forall (fun entry => exists uuid o,
                five_phases !! uuid = Some o /\ entry = io_properties o)
       (results_of (filter_by_phase reference five_phases 3 2 [])).
Proof.
  split; [exact ref_objects_laws|].
  assert (Hret : returned (filter_by_phase reference five_phases 3 2 []) = true)
    by (vm_compute; reflexivity).
  split; [exact Hret|].
  exact (filter_by_phase_returns_stored reference five_phases 3 2 [] [] _
           ref_objects_laws (returned_run _ Hret)).
Defined.

Lemma answered_hits (r : result (list QueryObject)) :
  answered r = true -> r = Ok (hits_of r).
Proof. destruct r; simpl; [reflexivity | discriminate]. Qed.

Lemma found_hits (r : result (list QueryObject)) :
  found r = true ->
  r = Ok (List.hd no_hit (hits_of r) :: List.tl (hits_of r)).
Proof. destruct r as [[|h t]|e]; simpl; try discriminate. reflexivity. Qed.

Lemma self_among_Exists (chembl_id : string) (hits : list QueryObject) :
  self_among chembl_id hits = true ->
  Exists (fun h => properties h !! "molecule_chembl_id" = Some (PyStr chembl_id))
    hits.
Proof.
  unfold self_among. rewrite existsb_exists. intros (h & Hin & Hh).
  apply Exists_exists. exists h. split; [by apply list_elem_of_In|].
  destruct (properties h !! "molecule_chembl_id") as [[]|]; try discriminate.
  apply String.eqb_eq in Hh. by subst.
Qed.

Lemma import_data_stores_every_record_witness :
  accepts_all healthy /\ 0 < 2
  /\ fetch_molecules healthy 5 = Ok five_records
  /\ outcome (import_data healthy 2 5 fresh) = None
  /\ Forall (fun compound =>
               exists chembl_id,
                 compound !! "molecule_chembl_id" = Some chembl_id
                 /\ is_Some (w_objects (snd (import_data healthy 2 5 fresh))
                               !! generate_uuid5 healthy chembl_id))
       five_records.
Proof.
  assert (H2 : 0 < 2) by lia.
  assert (Hf : fetch_molecules healthy 5 = Ok five_records) by reflexivity.
  assert (Hout : outcome (import_data healthy 2 5 fresh) = None)
    by (vm_compute; reflexivity).
  split; [exact healthy_accepts_all|]. split; [exact H2|].
  split; [exact Hf|]. split; [exact Hout|].
  destruct (run_returned _ Hout) as [v Hrun].
  exact (import_data_stores_every_record healthy 2 5 fresh _ v _
           healthy_accepts_all H2 Hf Hrun).
Defined.

Lemma semantic_search_respects_filter_witness :
  EngineLaws (objects reference)
  /\ returned (semantic_search reference five_phases "phase" 3
                 (Some phase_3_filter) []) = true
  /\ Forall (fun entry =>
               exists props d,
                 eval_where phase_3_filter props = true
                 /\ entry = <[ "certainty" := PyFloat (1 - d) ]> props)
       (results_of (semantic_search reference five_phases "phase" 3
                      (Some phase_3_filter) [])).
Proof.
  split; [exact ref_objects_laws|].
  assert (Hret : returned (semantic_search reference five_phases "phase" 3
                             (Some phase_3_filter) []) = true)
    by (vm_compute; reflexivity).
  split; [exact Hret|].
  exact (semantic_search_respects_filter reference five_phases "phase" 3
           phase_3_filter [] [] _ ref_objects_laws (returned_run _ Hret)).
Defined.

Lemma similar_compounds_complete_witness :
  EngineLaws (objects reference)
  /\ 0 <= 3
  /\ found (ref_objects five_phases (reference_query "CHEMBL13")) = true
  /\ self_among "CHEMBL13"
       (hits_of
          (ref_objects five_phases
             (query_near_vector
                (vector (metadata
                           (List.hd no_hit
                              (hits_of (ref_objects five_phases
                                          (reference_query "CHEMBL13"))))))
                (3 + 1) ["distance"]))) = true
  /\ returned (get_similar_compounds reference five_phases "CHEMBL13" 3 [])
     = true
  /\ Forall (fun h =>
               forall v,
                 properties h !! "molecule_chembl_id" = Some v ->
                 py_eq v (PyStr "CHEMBL13") = false ->
                 exists entry,
                   In entry
                     (results_of (get_similar_compounds reference five_phases
                                    "CHEMBL13" 3 []))
                   /\ entry_of h entry)
       (hits_of
          (ref_objects five_phases
             (query_near_vector
                (vector (metadata
                           (List.hd no_hit
                              (hits_of (ref_objects five_phases
                                          (reference_query "CHEMBL13"))))))
                (3 + 1) ["distance"]))).
Proof.
  assert (H3 : 0 <= 3) by lia.
  assert (Hfound : found (ref_objects five_phases (reference_query "CHEMBL13"))
                   = true) by (vm_compute; reflexivity).
  set (reference0 := List.hd no_hit
                       (hits_of (ref_objects five_phases
                                   (reference_query "CHEMBL13")))) in *.
  set (near := ref_objects five_phases
                 (query_near_vector (vector (metadata reference0)) (3 + 1)
                    ["distance"])) in *.
  assert (Hanswered : answered near = true) by (vm_compute; reflexivity).
  assert (Hself : self_among "CHEMBL13" (hits_of near) = true)
    by (vm_compute; reflexivity).
  assert (Hret : returned (get_similar_compounds reference five_phases
                             "CHEMBL13" 3 []) = true)
    by (vm_compute; reflexivity).
  split; [exact ref_objects_laws|]. split; [exact H3|].
  split; [exact Hfound|]. split; [exact Hself|]. split; [exact Hret|].
  exact (similar_compounds_complete reference five_phases "CHEMBL13" 3 [] []
           reference0 _ (hits_of near) _ ref_objects_laws H3
           (found_hits _ Hfound) (answered_hits near Hanswered)
           (self_among_Exists _ _ Hself) (returned_run _ Hret)).
Defined.

Lemma prepared_parts (r : result (PyDict * list Q * string)) :
  outcome (r, tt) = None ->
  r = Ok ((default (∅, [], "") (match r with Ok x => Some x | Raise _ => None end)).1.1,
          (default (∅, [], "") (match r with Ok x => Some x | Raise _ => None end)).1.2,
          (default (∅, [], "") (match r with Ok x => Some x | Raise _ => None end)).2).
Proof.
  destruct r as [[[p v] u]|e]; unfold outcome; simpl; [reflexivity|discriminate].
Qed.

Lemma process_batch_last_write_wins_witness :
  accepts_all healthy
  /\ Forall (embeddable healthy) [aspirin; chembl99]
  /\ outcome (prepared healthy (phase_record "CHEMBL25" 1), tt) = None
  /\ exists w' o,
       process_batch healthy ([aspirin; chembl99] ++ [phase_record "CHEMBL25" 1])
         fresh = (Ok tt, w')
       /\ w_objects w' !! "uuid5:CHEMBL25" = Some o
       /\ io_properties o !! "max_phase" = Some (PyInt 1).
Proof.
  assert (Hb : Forall (embeddable healthy) [aspirin; chembl99]).
  { repeat constructor; eexists _, _; split; vm_compute; reflexivity. }
  assert (Hp : outcome (prepared healthy (phase_record "CHEMBL25" 1), tt) = None)
    by (vm_compute; reflexivity).
  split; [exact healthy_accepts_all|]. split; [exact Hb|]. split; [exact Hp|].
  destruct (process_batch_last_write_wins healthy [aspirin; chembl99]
              (phase_record "CHEMBL25" 1) fresh _ _ _
              healthy_accepts_all Hb (prepared_parts _ Hp)) as (w' & Hrun & Ho).
  assert (Hu : (default (∅, [], "")
                  (match prepared healthy (phase_record "CHEMBL25" 1) with
                   | Ok x => Some x
                   | Raise _ => None
                   end)).2 = "uuid5:CHEMBL25") by (vm_compute; reflexivity).
  rewrite Hu in Ho.
  exists w'. eexists. split; [exact Hrun|]. split; [exact Ho|].
  vm_compute. reflexivity.
Defined.
